(** * ConvNeXt with MSCA blocks ([src/models/convnext.py]): model and properties

    The Python module builds a hierarchical vision backbone out of
    [torch.nn] modules.  This development embeds the module constructors
    ([__init__]) and the forward passes as fallible functions: a Python
    exception is an [Err], a returned value an [Ok].  Python [int]s are [Z],
    Python [float] hyper-parameters (ratios, rates, eps) are the rationals
    they denote, and tensor elements live in an abstract scalar type with the
    floating-point operations as an interface ([FloatOps]), so that nothing
    proved here depends on how those operations round.  The functions of
    [torch] and [timm] that the module calls are written after their
    documented behaviour on the batched four-axis tensors the network
    handles. *)

From Stdlib Require Import ZArith QArith List Bool String Lia.
Import ListNotations.
Local Open Scope Z_scope.

(** ** Python exceptions and fallible computations *)

Inductive exn : Type :=
| AssertionError (msg : string)
| ValueError (msg : string)
| RuntimeError (msg : string)
| IndexError (msg : string)
| KeyError (key : string)
| NotImplementedError.

Inductive result (A : Type) : Type :=
| Ok (a : A)
| Err (e : exn).
Arguments Ok {A} a.
Arguments Err {A} e.

Definition bind {A B : Type} (r : result A) (k : A -> result B) : result B :=
  match r with
  | Ok a => k a
  | Err e => Err e
  end.

Declare Scope result_scope.
Delimit Scope result_scope with result.
Notation "x <- r ;; k" := (bind r (fun x => k))
  (at level 61, r at next level, right associativity) : result_scope.
Notation "r ;;; k" := (bind r (fun _ => k))
  (at level 61, right associativity) : result_scope.
Local Open Scope result_scope.

Definition is_ok {A : Type} (r : result A) : bool :=
  match r with Ok _ => true | Err _ => false end.

(** [assert cond, msg] *)
Definition py_assert (cond : bool) (msg : string) : result unit :=
  if cond then Ok tt else Err (AssertionError msg).

(** [[f(x) for x in l]], left to right, stopping at the first exception. *)
Fixpoint mapM {A B : Type} (f : A -> result B) (l : list A) : result (list B) :=
  match l with
  | [] => Ok []
  | a :: l' => b <- f a ;; bs <- mapM f l' ;; Ok (b :: bs)
  end.

(** ** Python integers, floats and sequences *)

(** [range(n)]: empty when [n <= 0]. *)
Definition range (n : Z) : list Z := map Z.of_nat (seq 0 (Z.to_nat n)).

Definition len {A : Type} (l : list A) : Z := Z.of_nat (List.length l).

(** [l[i]] on a list or tuple: a negative index counts from the end. *)
Definition py_index {A : Type} (l : list A) (i : Z) : result A :=
  let j := if i <? 0 then i + len l else i in
  if (j <? 0) || (len l <=? j) then Err (IndexError "list index out of range")
  else match nth_error l (Z.to_nat j) with
       | Some a => Ok a
       | None => Err (IndexError "list index out of range")
       end.

Definition sumZ (l : list Z) : Z := fold_left Z.add l 0.

(** [int(x)] on a float: truncation toward zero. *)
Definition py_int (x : Q) : Z := Z.quot (Qnum x) (Z.pos (Qden x)).

(** [n * x] for an int [n] and a float [x]. *)
Definition int_times_float (n : Z) (x : Q) : Q := Qmult (inject_Z n) x.

Definition Qgtb0 (x : Q) : bool := 0 <? Qnum x.

(** A parameter that is either one value or a list or tuple of values
    ([isinstance(v, (list, tuple))]). *)
Inductive scalar_or_seq (A : Type) : Type :=
| Scalar (a : A)
| Seq (l : list A).
Arguments Scalar {A} a.
Arguments Seq {A} l.

Definition broadcast_to_stages {A : Type} (v : scalar_or_seq A) (num_stages : Z)
  : list A :=
  match v with
  | Scalar a => repeat a (Z.to_nat num_stages)
  | Seq l => l
  end.

(** ** Tensor elements *)

Class FloatOps (F : Type) : Type := {
  fzero : F;
  fone : F;
  fadd : F -> F -> F;
  fsub : F -> F -> F;
  fmul : F -> F -> F;
  fdiv : F -> F -> F;
  fsqrt : F -> F;
  fgelu : F -> F;
  fsigmoid : F -> F;
  fsum : list F -> F;
  fmean : list F -> F;
  of_float : Q -> F;
  (** the value an initialiser draws for entry [i] of a parameter of shape [s] *)
  init_param : list Z -> list Z -> F
}.

(** An exact instance over the integers, used to run the definitions on
    concrete tensors ([/] and the square root are the integer ones, the
    activation functions are left as the identity). *)
Definition ZFloatOps : FloatOps Z := {|
  fzero := 0;
  fone := 1;
  fadd := Z.add;
  fsub := Z.sub;
  fmul := Z.mul;
  fdiv := Z.div;
  fsqrt := Z.sqrt;
  fgelu := fun x => x;
  fsigmoid := fun x => x;
  fsum := fun l => fold_left Z.add l 0;
  fmean := fun l => fold_left Z.add l 0 / Z.of_nat (List.length l);
  of_float := py_int;
  init_param := fun _ i => 1 + fold_left Z.add i 0
|}.

(** ** Tensors

    A tensor is its shape together with its elements, read at a multi-index.
    Only the elements at indices inside the shape matter; two tensors are
    the same when they agree on shape and on those elements. *)

Section Model.
Context {F : Type} {ops : FloatOps F}.

Record Tensor : Type := mkTensor { shape : list Z; val : list Z -> F }.

Definition rank (t : Tensor) : nat := List.length (shape t).

Definition in_bounds (s i : list Z) : Prop :=
  Forall2 (fun k d => 0 <= k < d) i s.

Definition tensor_eq (a b : Tensor) : Prop :=
  shape a = shape b /\ forall i, in_bounds (shape a) i -> val a i = val b i.

Definition get (l : list Z) (d : nat) : Z := nth d l 0.

Fixpoint set (l : list Z) (d : nat) (v : Z) : list Z :=
  match l, d with
  | [], _ => []
  | _ :: r, O => v :: r
  | x :: r, S d' => x :: set r d' v
  end.

Fixpoint shape_eqb (a b : list Z) : bool :=
  match a, b with
  | [], [] => true
  | x :: a', y :: b' => (x =? y) && shape_eqb a' b'
  | _, _ => false
  end.

(** [torch.full], [torch.ones], [torch.zeros] and a freshly initialised
    parameter of a given shape. *)
Definition torch_full (s : list Z) (v : F) : result Tensor :=
  if existsb (fun d => d <? 0) s
  then Err (RuntimeError "Trying to create tensor with negative dimension")
  else Ok (mkTensor s (fun _ => v)).

Definition torch_ones (s : list Z) : result Tensor := torch_full s fone.
Definition torch_zeros (s : list Z) : result Tensor := torch_full s fzero.

Definition fresh_param (s : list Z) : result Tensor :=
  if existsb (fun d => d <? 0) s
  then Err (RuntimeError "Trying to create tensor with negative dimension")
  else Ok (mkTensor s (init_param s)).

Definition tmap (f : F -> F) (t : Tensor) : Tensor :=
  mkTensor (shape t) (fun i => f (val t i)).

(** [torch.narrow(x, d, start, length)] *)
Definition torch_narrow (x : Tensor) (d : nat) (start length : Z) : Tensor :=
  mkTensor (set (shape x) d length)
           (fun i => val x (set i d (get i d + start))).

Fixpoint narrow_all (x : Tensor) (d : nat) (start : Z) (sizes : list Z)
  : list Tensor :=
  match sizes with
  | [] => []
  | s :: r => torch_narrow x d start s :: narrow_all x d (start + s) r
  end.

(** [torch.split(x, sizes, dim=d)] with a tuple of sizes. *)
Definition torch_split (x : Tensor) (sizes : list Z) (d : nat)
  : result (list Tensor) :=
  if (rank x <=? d)%nat then Err (IndexError "Dimension out of range")
  else if existsb (fun s => s <? 0) sizes
  then Err (RuntimeError "split_with_sizes expects split_sizes have only non-negative entries")
  else if negb (sumZ sizes =? get (shape x) d)
  then Err (RuntimeError "split_with_sizes expects split_sizes to sum exactly to the dimension size")
  else Ok (narrow_all x d 0 sizes).

(** [torch.chunk(x, chunks, dim=d)]: pieces of size [ceil(n / chunks)], the
    last one smaller, possibly fewer than [chunks] pieces. *)
Definition torch_chunk (x : Tensor) (chunks : Z) (d : nat)
  : result (list Tensor) :=
  if (rank x <=? d)%nat then Err (IndexError "Dimension out of range")
  else if chunks <=? 0
  then Err (RuntimeError "chunk expects `chunks` to be greater than 0")
  else
    let n := get (shape x) d in
    let split_size := (n + chunks - 1) / chunks in
    if split_size =? 0 then torch_split x (repeat 0 (Z.to_nat chunks)) d
    else
      let num := Z.max ((n + split_size - 1) / split_size) 1 in
      let last := split_size - (split_size * num - n) in
      torch_split x (repeat split_size (Z.to_nat (num - 1)) ++ [last]) d.

(** [torch.cat(ts, dim=d)].  Every tensor must have the shape of the first
    one except along [d]; only a 1-D empty tensor (shape [(0,)]) is skipped,
    so an empty slice of shape [(N, 0, H, W)] still takes part in the check. *)
Definition same_except (d : nat) (s1 s2 : list Z) : bool :=
  shape_eqb (set s1 d 0) (set s2 d 0).

Fixpoint cat_val (ts : list Tensor) (d : nat) (i : list Z) : F :=
  match ts with
  | [] => fzero
  | t :: r =>
      if get i d <? get (shape t) d then val t i
      else cat_val r d (set i d (get i d - get (shape t) d))
  end.

Definition torch_cat (ts : list Tensor) (d : nat) : result Tensor :=
  match filter (fun t => negb (shape_eqb (shape t) [0])) ts with
  | [] =>
      match ts with
      | [] => Err (RuntimeError "torch.cat(): expected a non-empty list of Tensors")
      | t :: _ => Ok t
      end
  | t0 :: r =>
      if (rank t0 <=? d)%nat then Err (IndexError "Dimension out of range")
      else if forallb (fun t => same_except d (shape t0) (shape t)) r
      then Ok (mkTensor
                 (set (shape t0) d (sumZ (map (fun t => get (shape t) d) (t0 :: r))))
                 (cat_val (t0 :: r) d))
      else Err (RuntimeError "Sizes of tensors must match except in the cat dimension")
  end.

(** Broadcasting of two shapes, aligned at their last axes. *)
Fixpoint broadcast_rev (a b : list Z) : result (list Z) :=
  match a, b with
  | [], _ => Ok b
  | _, [] => Ok a
  | x :: a', y :: b' =>
      r <- broadcast_rev a' b' ;;
      if x =? y then Ok (x :: r)
      else if x =? 1 then Ok (y :: r)
      else if y =? 1 then Ok (x :: r)
      else Err (RuntimeError "The size of tensor a must match the size of tensor b")
  end.

Definition broadcast_shapes (a b : list Z) : result (list Z) :=
  r <- broadcast_rev (rev a) (rev b) ;; Ok (rev r).

(** The index at which an operand of shape [s] is read for the result index
    [i]: leading axes the operand lacks are dropped, axes of size 1 read 0. *)
Definition bidx (s i : list Z) : list Z :=
  map (fun dk => if fst dk =? 1 then 0 else snd dk)
      (combine s (skipn (List.length i - List.length s) i)).

Definition tbinop (f : F -> F -> F) (a b : Tensor) : result Tensor :=
  s <- broadcast_shapes (shape a) (shape b) ;;
  Ok (mkTensor s (fun i => f (val a (bidx (shape a) i)) (val b (bidx (shape b) i)))).

Definition tadd := tbinop fadd.
Definition tsub := tbinop fsub.
Definition tmul := tbinop fmul.
Definition tdiv := tbinop fdiv.

(** [x + c] for a Python float [c]. *)
Definition tadd_scalar (x : Tensor) (c : Q) : Tensor :=
  tmap (fun v => fadd v (of_float c)) x.

(** [x.pow(2)] *)
Definition tpow2 (x : Tensor) : Tensor := tmap (fun v => fmul v v) x.

(** [x.mean(d, keepdim=True)] *)
Definition mean_keepdim (x : Tensor) (d : nat) : result Tensor :=
  if (rank x <=? d)%nat then Err (IndexError "Dimension out of range")
  else Ok (mkTensor (set (shape x) d 1)
             (fun i => fmean (map (fun k => val x (set i d k))
                                  (range (get (shape x) d))))).

(** [x.permute] with the listed axes *)
Fixpoint index_of (a : nat) (l : list nat) : nat :=
  match l with
  | [] => O
  | b :: r => if (a =? b)%nat then O else S (index_of a r)
  end.

Definition is_permutation (dims : list nat) (n : nat) : bool :=
  (List.length dims =? n)%nat
  && forallb (fun a => existsb (Nat.eqb a) dims) (seq 0 n).

Definition permute (x : Tensor) (dims : list nat) : result Tensor :=
  if is_permutation dims (rank x)
  then Ok (mkTensor (map (get (shape x)) dims)
             (fun i => val x (map (fun a => get i (index_of a dims))
                                  (seq 0 (rank x)))))
  else Err (RuntimeError "permute: the dims do not match the tensor's axes").

(** [w[:, None, None]] on a 1-D tensor: shape [(C,)] becomes [(C, 1, 1)]. *)
Definition index_None_None (w : Tensor) : Tensor :=
  mkTensor (shape w ++ [1; 1]) (fun i => val w (firstn (rank w) i)).

(** ** [torch.nn] modules used by the network *)

(** [nn.Conv2d].  [kernel_size], [stride], [padding] and [dilation] are
    (height, width) pairs; an [int] argument stands for the pair of it twice. *)
Definition pair_of (k : Z) : Z * Z := (k, k).

Record Conv2d : Type := mkConv2d {
  in_channels : Z;
  out_channels : Z;
  kernel_size : Z * Z;
  stride : Z * Z;
  padding : Z * Z;
  dilation : Z * Z;
  groups : Z;
  conv_weight : Tensor;
  conv_bias : option Tensor
}.

Definition Conv2d_init (in_channels out_channels : Z)
    (kernel_size stride padding dilation : Z * Z) (groups : Z) (bias : bool)
  : result Conv2d :=
  if groups <=? 0 then Err (ValueError "groups must be a positive integer")
  else if negb (in_channels mod groups =? 0)
  then Err (ValueError "in_channels must be divisible by groups")
  else if negb (out_channels mod groups =? 0)
  then Err (ValueError "out_channels must be divisible by groups")
  else
    w <- fresh_param [out_channels; in_channels / groups;
                      fst kernel_size; snd kernel_size] ;;
    b <- (if bias then b <- fresh_param [out_channels] ;; Ok (Some b)
          else Ok None) ;;
    Ok (mkConv2d in_channels out_channels kernel_size stride padding dilation
                 groups w b).

Definition conv_out_size (h k s p d : Z) : Z :=
  (h + 2 * p - d * (k - 1) - 1) / s + 1.

(** The input read with zero padding around its two spatial axes. *)
Definition padded (x : Tensor) (i : list Z) : F :=
  if (0 <=? get i 2) && (get i 2 <? get (shape x) 2)
     && (0 <=? get i 3) && (get i 3 <? get (shape x) 3)
  then val x i else fzero.

Definition conv_val (m : Conv2d) (x : Tensor) (i : list Z) : F :=
  let n := get i 0 in
  let o := get i 1 in
  let cg := in_channels m / groups m in
  let og := out_channels m / groups m in
  let g := o / og in
  let acc :=
    fsum (flat_map (fun c =>
            flat_map (fun a =>
              map (fun b =>
                fmul (val (conv_weight m) [o; c; a; b])
                     (padded x [n; g * cg + c;
                                get i 2 * fst (stride m) + a * fst (dilation m)
                                  - fst (padding m);
                                get i 3 * snd (stride m) + b * snd (dilation m)
                                  - snd (padding m)]))
                (range (snd (kernel_size m))))
              (range (fst (kernel_size m))))
            (range cg)) in
  match conv_bias m with
  | Some bs => fadd acc (val bs [o])
  | None => acc
  end.

(** The forward pass on a batched input of shape [(N, C, H, W)]. *)
Definition Conv2d_forward (m : Conv2d) (x : Tensor) : result Tensor :=
  match shape x with
  | [n; c; h; w] =>
      if negb (c =? in_channels m)
      then Err (RuntimeError "expected input to have in_channels channels")
      else if (fst (stride m) <=? 0) || (snd (stride m) <=? 0)
      then Err (RuntimeError "non-positive stride is not supported")
      else if (h + 2 * fst (padding m)
                 <? fst (dilation m) * (fst (kernel_size m) - 1) + 1)
              || (w + 2 * snd (padding m)
                    <? snd (dilation m) * (snd (kernel_size m) - 1) + 1)
      then Err (RuntimeError "Kernel size can't be greater than actual input size")
      else Ok (mkTensor
                 [n; out_channels m;
                  conv_out_size h (fst (kernel_size m)) (fst (stride m))
                                (fst (padding m)) (fst (dilation m));
                  conv_out_size w (snd (kernel_size m)) (snd (stride m))
                                (snd (padding m)) (snd (dilation m))]
                 (conv_val m x))
  | _ => Err (RuntimeError "Expected 4D (batched) input to conv2d")
  end.

(** [nn.Linear] acts on the last axis. *)
Record Linear : Type := mkLinear {
  in_features : Z;
  out_features : Z;
  lin_weight : Tensor;
  lin_bias : Tensor
}.

Definition Linear_init (in_features out_features : Z) : result Linear :=
  w <- fresh_param [out_features; in_features] ;;
  b <- fresh_param [out_features] ;;
  Ok (mkLinear in_features out_features w b).

Definition Linear_forward (m : Linear) (x : Tensor) : result Tensor :=
  match rev (shape x) with
  | [] => Err (RuntimeError "mat1 and mat2 shapes cannot be multiplied")
  | k :: lead =>
      if negb (k =? in_features m)
      then Err (RuntimeError "mat1 and mat2 shapes cannot be multiplied")
      else Ok (mkTensor (rev lead ++ [out_features m])
                 (fun i =>
                    let o := last i 0 in
                    let pre := removelast i in
                    fadd (fsum (map (fun j => fmul (val x (pre ++ [j]))
                                                   (val (lin_weight m) [o; j]))
                                    (range (in_features m))))
                         (val (lin_bias m) [o])))
  end.

(** [F.layer_norm(x, normalized_shape, weight, bias, eps)]: statistics over
    the trailing axes listed in [normalized_shape]. *)
Fixpoint all_indices (s : list Z) : list (list Z) :=
  match s with
  | [] => [[]]
  | d :: r => flat_map (fun k => map (cons k) (all_indices r)) (range d)
  end.

Definition F_layer_norm (x : Tensor) (normalized_shape : list Z)
    (weight bias : Tensor) (eps : Q) : result Tensor :=
  let lead := (rank x - List.length normalized_shape)%nat in
  if (rank x <? List.length normalized_shape)%nat
     || negb (shape_eqb (skipn lead (shape x)) normalized_shape)
  then Err (RuntimeError "layer_norm: input does not end with normalized_shape")
  else Ok (mkTensor (shape x)
             (fun i =>
                let outer := firstn lead i in
                let inner := skipn lead i in
                let grp := map (fun j => val x (outer ++ j))
                               (all_indices normalized_shape) in
                let u := fmean grp in
                let s := fmean (map (fun v => fmul (fsub v u) (fsub v u)) grp) in
                fadd (fmul (fdiv (fsub (val x i) u)
                                 (fsqrt (fadd s (of_float eps))))
                           (val weight inner))
                     (val bias inner))).

(** [nn.LayerNorm(normalized_shape, eps)] *)
Record nnLayerNorm : Type := mknnLayerNorm {
  nln_shape : list Z;
  nln_eps : Q;
  nln_weight : Tensor;
  nln_bias : Tensor
}.

Definition nnLayerNorm_init (normalized_shape : list Z) (eps : Q)
  : result nnLayerNorm :=
  w <- torch_ones normalized_shape ;;
  b <- torch_zeros normalized_shape ;;
  Ok (mknnLayerNorm normalized_shape eps w b).

Definition nnLayerNorm_forward (m : nnLayerNorm) (x : Tensor) : result Tensor :=
  F_layer_norm x (nln_shape m) (nln_weight m) (nln_bias m) (nln_eps m).

(** [timm]'s [DropPath] and [nn.Identity].  In training mode [DropPath]
    draws one Bernoulli sample per example; the draw is the argument [rnd]. *)
Inductive DropPathModule : Type :=
| DropPath (drop_prob : Q)
| Identity.

Definition drop_path_fn (x : Tensor) (drop_prob : Q) (training : bool)
    (rnd : list Z -> F) : result Tensor :=
  if Qeq_bool drop_prob 0 || negb training then Ok x
  else
    let keep_prob := (1 - drop_prob)%Q in
    let random_tensor :=
      mkTensor (get (shape x) 0 :: repeat 1 (rank x - 1)%nat) rnd in
    let random_tensor :=
      if Qgtb0 keep_prob
      then tmap (fun v => fdiv v (of_float keep_prob)) random_tensor
      else random_tensor in
    tmul x random_tensor.

Definition DropPathModule_forward (m : DropPathModule) (training : bool)
    (rnd : list Z -> F) (x : Tensor) : result Tensor :=
  match m with
  | DropPath p => drop_path_fn x p training rnd
  | Identity => Ok x
  end.

(** ** The classes of [convnext.py] *)

(** *** [PartialConv2d]: convolution on a trailing part of the channels *)

Record PartialConv2d : Type := mkPartialConv2d {
  conv : Conv2d;
  split_indices : Z * Z
}.

Definition PartialConv2d_init (in_channels out_channels : Z)
    (kernel_size : Z * Z) (conv_ratio : Q)
    (stride padding dilation : Z * Z) (groups : Z) (bias : bool)
  : result PartialConv2d :=
  let in_chs := py_int (int_times_float in_channels conv_ratio) in
  let out_chs := py_int (int_times_float out_channels conv_ratio) in
  let gps := let g := py_int (int_times_float groups conv_ratio) in
             if g =? 0 then 1 else g in
  c <- Conv2d_init in_chs out_chs kernel_size stride padding dilation gps bias ;;
  Ok (mkPartialConv2d c (in_channels - in_chs, in_chs)).

Definition PartialConv2d_forward (m : PartialConv2d) (x : Tensor)
  : result Tensor :=
  parts <- torch_split x [fst (split_indices m); snd (split_indices m)] 1 ;;
  match parts with
  | [identity; cv] =>
      y <- Conv2d_forward (conv m) cv ;;
      torch_cat [identity; y] 1
  | _ => Err (ValueError "wrong number of values to unpack")
  end.

(** The [conv_fn] argument of the blocks: [nn.Conv2d] itself, or
    [partial(PartialConv2d, conv_ratio=r)].  Both are called as
    [conv_fn(cin, cout, kernel_size=k, padding=p, groups=g)]. *)
Inductive ConvFn : Type :=
| nn_Conv2d
| partial_PartialConv2d (conv_ratio : Q).

Inductive ConvModule : Type :=
| StdConv (c : Conv2d)
| PartConv (p : PartialConv2d).

Definition call_conv_fn (conv_fn : ConvFn) (cin cout : Z)
    (kernel_size padding : Z * Z) (groups : Z) : result ConvModule :=
  match conv_fn with
  | nn_Conv2d =>
      c <- Conv2d_init cin cout kernel_size (1, 1) padding (1, 1) groups true ;;
      Ok (StdConv c)
  | partial_PartialConv2d r =>
      p <- PartialConv2d_init cin cout kernel_size r (1, 1) padding (1, 1)
                              groups true ;;
      Ok (PartConv p)
  end.

Definition ConvModule_forward (m : ConvModule) (x : Tensor) : result Tensor :=
  match m with
  | StdConv c => Conv2d_forward c x
  | PartConv p => PartialConv2d_forward p x
  end.

(** *** [LayerNorm] with two data formats *)

Record LayerNorm : Type := mkLayerNorm {
  ln_weight : Tensor;
  ln_bias : Tensor;
  ln_eps : Q;
  data_format : string;
  normalized_shape : list Z
}.

Definition LayerNorm_init (normalized_shape : Z) (eps : Q) (data_format : string)
  : result LayerNorm :=
  w <- torch_ones [normalized_shape] ;;
  b <- torch_zeros [normalized_shape] ;;
  if negb (String.eqb data_format "channels_last"
           || String.eqb data_format "channels_first")
  then Err NotImplementedError
  else Ok (mkLayerNorm w b eps data_format [normalized_shape]).

Definition LayerNorm_forward (m : LayerNorm) (x : Tensor) : result Tensor :=
  if String.eqb (data_format m) "channels_last"
  then F_layer_norm x (normalized_shape m) (ln_weight m) (ln_bias m) (ln_eps m)
  else if String.eqb (data_format m) "channels_first"
  then
    u <- mean_keepdim x 1 ;;
    d <- tsub x u ;;
    s <- mean_keepdim (tpow2 d) 1 ;;
    d <- tsub x u ;;
    x <- tdiv d (tmap fsqrt (tadd_scalar s (ln_eps m))) ;;
    x <- tmul (index_None_None (ln_weight m)) x ;;
    tadd x (index_None_None (ln_bias m))
  else
    (* no branch taken: the method returns None, which is not a tensor *)
    Err (RuntimeError "LayerNorm.forward returned None").

(** *** [MSCABlock] *)

Record Attn : Type := mkAttn {
  attn_conv1 : Conv2d;
  attn_norm : nnLayerNorm;
  attn_conv2 : Conv2d
}.

Definition Attn_forward (a : Attn) (x : Tensor) : result Tensor :=
  x <- Conv2d_forward (attn_conv1 a) x ;;
  x <- nnLayerNorm_forward (attn_norm a) x ;;
  let x := tmap fgelu x in
  x <- Conv2d_forward (attn_conv2 a) x ;;
  Ok (tmap fsigmoid x).

Record MSCABlock : Type := mkMSCABlock {
  conv_branches : list ConvModule;
  attn : Attn;
  channel_fusion : Conv2d;
  norm : LayerNorm;
  pwconv1 : Linear;
  pwconv2 : Linear;
  gamma : option Tensor;
  drop_path : DropPathModule
}.

Definition kernel_count_msg : string :=
  "需要3个卷积核配置 [3x3, 1x11, 11x1]".
Definition kernel_sizes_msg : string :=
  "卷积核尺寸需要为 [3, 11, 11]".

(** The two assertions on [kernel_sizes] in [MSCABlock.__init__]. *)
Definition kernel_checks (kernel_sizes : list Z) : result unit :=
  py_assert (len kernel_sizes =? 3) kernel_count_msg ;;;
  k0 <- py_index kernel_sizes 0 ;;
  k1 <- py_index kernel_sizes 1 ;;
  k2 <- py_index kernel_sizes 2 ;;
  py_assert ((k0 =? 3) && (k1 =? 11) && (k2 =? 11)) kernel_sizes_msg.

(** [layer_scale_init_value * torch.ones((dim))] *)
Definition scaled_ones (c : Q) (dim : Z) : result Tensor :=
  o <- torch_ones [dim] ;; Ok (tmap (fun v => fmul (of_float c) v) o).

Definition MSCABlock_init (dim : Z) (kernel_sizes : list Z) (drop_path : Q)
    (layer_scale_init_value : Q) (conv_fn : ConvFn) : result MSCABlock :=
  conv_branches <-
    mapM (fun i =>
            if i =? 0
            then call_conv_fn conv_fn (dim / 4) (dim / 4) (3, 3) (pair_of 1) (dim / 4)
            else if i =? 1
            then call_conv_fn conv_fn (dim / 4) (dim / 4) (1, 11) (0, 5) (dim / 4)
            else call_conv_fn conv_fn (dim / 4) (dim / 4) (11, 1) (5, 0) (dim / 4))
         (range 3) ;;
  kernel_checks kernel_sizes ;;;
  a1 <- Conv2d_init dim (dim / 8) (pair_of 1) (1, 1) (0, 0) (1, 1) 1 true ;;
  an <- nnLayerNorm_init [dim / 8; 1; 1] (1 # 100000) ;;
  a2 <- Conv2d_init (dim / 8) dim (pair_of 1) (1, 1) (0, 0) (1, 1) 1 true ;;
  channel_fusion <-
    Conv2d_init (dim * 2) dim (pair_of 1) (1, 1) (0, 0) (1, 1) 1 true ;;
  norm <- LayerNorm_init dim (1 # 1000000) "channels_last" ;;
  pwconv1 <- Linear_init dim (4 * dim) ;;
  pwconv2 <- Linear_init (4 * dim) dim ;;
  gamma <- (if Qgtb0 layer_scale_init_value
            then g <- scaled_ones layer_scale_init_value dim ;; Ok (Some g)
            else Ok None) ;;
  let dp := if Qgtb0 drop_path then DropPath drop_path else Identity in
  Ok (mkMSCABlock conv_branches (mkAttn a1 an a2) channel_fusion norm
                  pwconv1 pwconv2 gamma dp).

(** [enumerate(l)] *)
Definition enumerate {A : Type} (l : list A) : list (Z * A) :=
  combine (range (len l)) l.

Definition MSCABlock_forward (m : MSCABlock) (training : bool)
    (rnd : list Z -> F) (x : Tensor) : result Tensor :=
  let identity := x in
  x_split <- torch_chunk x 4 1 ;;
  conv_outs <- mapM (fun ib => xi <- py_index x_split (fst ib) ;;
                               ConvModule_forward (snd ib) xi)
                    (enumerate (conv_branches m)) ;;
  x3 <- py_index x_split 3 ;;
  let conv_outs := conv_outs ++ [x3] in
  fused <- torch_cat conv_outs 1 ;;
  fused <- tadd identity fused ;;
  fmean1 <- mean_keepdim fused 1 ;;
  attn_map <- Attn_forward (attn m) fmean1 ;;
  attended <- tmul fused attn_map ;;
  fused_features <- torch_cat [identity; attended] 1 ;;
  fused_features <- Conv2d_forward (channel_fusion m) fused_features ;;
  x <- permute fused_features [0; 2; 3; 1]%nat ;;
  x <- LayerNorm_forward (norm m) x ;;
  x <- Linear_forward (pwconv1 m) x ;;
  let x := tmap fgelu x in
  x <- Linear_forward (pwconv2 m) x ;;
  x <- (match gamma m with
        | Some g => tmul g x
        | None => Ok x
        end) ;;
  x <- permute x [0; 3; 1; 2]%nat ;;
  dx <- DropPathModule_forward (drop_path m) training rnd x ;;
  tadd fused_features dx.

(** *** [Block]: the plain residual block *)

Record Block : Type := mkBlock {
  dwconv : ConvModule;
  blk_norm : LayerNorm;
  blk_pwconv1 : Linear;
  blk_pwconv2 : Linear;
  blk_gamma : option Tensor;
  blk_drop_path : DropPathModule
}.

Definition Block_init (dim kernel_size : Z) (drop_path : Q)
    (layer_scale_init_value : Q) (conv_fn : ConvFn) : result Block :=
  dwconv <- call_conv_fn conv_fn dim dim (pair_of kernel_size)
                         (pair_of (kernel_size / 2)) dim ;;
  norm <- LayerNorm_init dim (1 # 1000000) "channels_last" ;;
  pwconv1 <- Linear_init dim (4 * dim) ;;
  pwconv2 <- Linear_init (4 * dim) dim ;;
  gamma <- (if Qgtb0 layer_scale_init_value
            then g <- scaled_ones layer_scale_init_value dim ;; Ok (Some g)
            else Ok None) ;;
  let dp := if Qgtb0 drop_path then DropPath drop_path else Identity in
  Ok (mkBlock dwconv norm pwconv1 pwconv2 gamma dp).

Definition Block_forward (m : Block) (training : bool) (rnd : list Z -> F)
    (x : Tensor) : result Tensor :=
  let input := x in
  x <- ConvModule_forward (dwconv m) x ;;
  x <- permute x [0; 2; 3; 1]%nat ;;
  x <- LayerNorm_forward (blk_norm m) x ;;
  x <- Linear_forward (blk_pwconv1 m) x ;;
  let x := tmap fgelu x in
  x <- Linear_forward (blk_pwconv2 m) x ;;
  x <- (match blk_gamma m with
        | Some g => tmul g x
        | None => Ok x
        end) ;;
  x <- permute x [0; 3; 1; 2]%nat ;;
  dx <- DropPathModule_forward (blk_drop_path m) training rnd x ;;
  tadd input dx.

(** *** [ConvNeXt]: stem, downsampling layers and stages *)

(** [torch.linspace(start, end, steps)], read back with [.item()].  The first
    half of the points is counted up from [start], the second half down from
    [end], as the library does. *)
Definition torch_linspace (start stop : Q) (steps : Z) : result (list Q) :=
  if steps <? 0 then Err (RuntimeError "number of steps must be non-negative")
  else if steps =? 1 then Ok [start]
  else
    let step := ((stop - start) / inject_Z (steps - 1))%Q in
    Ok (map (fun i => if i <? steps / 2
                      then (start + step * inject_Z i)%Q
                      else (stop - step * inject_Z (steps - i - 1))%Q)
            (range steps)).

Inductive DownsampleLayer : Type :=
| Stem (c : Conv2d) (n : LayerNorm)
| Downsample (n : LayerNorm) (c : Conv2d).

(** A block constructor, called as
    [ctor(dim, kernel_sizes, drop_path, layer_scale_init_value, conv_fn)]. *)
Definition block_ctor (B : Type) : Type :=
  Z -> list Z -> Q -> Q -> ConvFn -> result B.

(** The loop that fills [self.stages]: stage [i] holds [depths[i]] blocks, and
    [cur] counts the blocks of the stages before it. *)
Fixpoint build_stages {B : Type} (ctor : block_ctor B)
    (dims depths : list Z) (dp_rates : list Q) (layer_scale_init_value : Q)
    (conv_fns : list ConvFn) (stage_ids : list Z) (cur : Z)
  : result (list (list B)) :=
  match stage_ids with
  | [] => Ok []
  | i :: rest =>
      n <- py_index depths i ;;
      stage <- mapM (fun j =>
                       dim <- py_index dims i ;;
                       dp <- py_index dp_rates (cur + j) ;;
                       cf <- py_index conv_fns i ;;
                       ctor dim [3; 5; 7] dp layer_scale_init_value cf)
                    (range n) ;;
      n <- py_index depths i ;;
      stages <- build_stages ctor dims depths dp_rates layer_scale_init_value
                             conv_fns rest (cur + n) ;;
      Ok (stage :: stages)
  end.

Record ConvNeXt : Type := mkConvNeXt {
  num_stages : Z;
  num_classes : Z;
  downsample_layers : list DownsampleLayer;
  stages : list (list MSCABlock);
  final_norm : nnLayerNorm;
  head : Linear
}.

(** [ConvNeXt.__init__].  The closing [self.apply(self._init_weights)] and the
    rescaling of the head by [head_init_scale] only overwrite parameter
    values, which are arbitrary here already. *)
Definition ConvNeXt_init (in_chans num_classes : Z) (depths dims : list Z)
    (drop_path_rate layer_scale_init_value head_init_scale : Q)
    (kernel_sizes : scalar_or_seq Z) (conv_fns : scalar_or_seq ConvFn)
  : result ConvNeXt :=
  let num_stages := len depths in
  let kernel_sizes := broadcast_to_stages kernel_sizes num_stages in
  let conv_fns := broadcast_to_stages conv_fns num_stages in
  d0 <- py_index dims 0 ;;
  stem_conv <- Conv2d_init in_chans d0 (pair_of 4) (pair_of 4) (0, 0) (1, 1) 1 true ;;
  d0 <- py_index dims 0 ;;
  stem_norm <- LayerNorm_init d0 (1 # 1000000) "channels_first" ;;
  downs <- mapM (fun i =>
                   di <- py_index dims i ;;
                   n <- LayerNorm_init di (1 # 1000000) "channels_first" ;;
                   di <- py_index dims i ;;
                   di1 <- py_index dims (i + 1) ;;
                   c <- Conv2d_init di di1 (pair_of 2) (pair_of 2) (0, 0) (1, 1)
                                    1 true ;;
                   Ok (Downsample n c))
                (range (num_stages - 1)) ;;
  dp_rates <- torch_linspace 0 drop_path_rate (sumZ depths) ;;
  stages <- build_stages MSCABlock_init dims depths dp_rates
                         layer_scale_init_value conv_fns (range num_stages) 0 ;;
  dl <- py_index dims (-1) ;;
  final_norm <- nnLayerNorm_init [dl] (1 # 1000000) ;;
  dl <- py_index dims (-1) ;;
  head <- Linear_init dl num_classes ;;
  Ok (mkConvNeXt num_stages num_classes (Stem stem_conv stem_norm :: downs)
                 stages final_norm head).

(** The drop-path rates that the stage loop hands to the block constructor,
    stage by stage: the same loop run with a constructor that only records
    its [drop_path] argument. *)
Definition record_drop_path : block_ctor Q :=
  fun _ _ drop_path _ _ => Ok drop_path.

Definition block_drop_rates (depths dims : list Z) (drop_path_rate : Q)
    (conv_fns : list ConvFn) : result (list (list Q)) :=
  dp_rates <- torch_linspace 0 drop_path_rate (sumZ depths) ;;
  build_stages record_drop_path dims depths dp_rates 0 conv_fns
               (range (len depths)) 0.

(** ** The named factories *)

(** [_cfg()] *)
Record Cfg : Type := mkCfg {
  url : string;
  cfg_num_classes : Z;
  input_size : Z * Z * Z;
  pool_size : Z * Z;
  crop_pct : Q;
  interpolation : string;
  mean : list Q;
  std : list Q;
  first_conv : string;
  classifier : string
}.

Definition IMAGENET_DEFAULT_MEAN : list Q := [485 # 1000; 456 # 1000; 406 # 1000].
Definition IMAGENET_DEFAULT_STD : list Q := [229 # 1000; 224 # 1000; 225 # 1000].

Definition _cfg (url : string) : Cfg :=
  mkCfg url 1000 (3, 224, 224) (7, 7) (875 # 1000) "bicubic"
        IMAGENET_DEFAULT_MEAN IMAGENET_DEFAULT_STD "stem.0" "head.fc".

Definition release : string :=
  "https://github.com/sail-sg/inceptionnext/releases/download/model/".
Definition fbai : string := "https://dl.fbaipublicfiles.com/convnext/".

Definition model_urls : list (string * string) :=
  [ ("convnext_tiny_1k", fbai ++ "convnext_tiny_1k_224_ema.pth");
    ("convnext_small_1k", fbai ++ "convnext_small_1k_224_ema.pth");
    ("convnext_base_1k", fbai ++ "convnext_base_1k_224_ema.pth");
    ("convnext_large_1k", fbai ++ "convnext_large_1k_224_ema.pth");
    ("convnext_tiny_22k", fbai ++ "convnext_tiny_22k_224.pth");
    ("convnext_small_22k", fbai ++ "convnext_small_22k_224.pth");
    ("convnext_base_22k", fbai ++ "convnext_base_22k_224.pth");
    ("convnext_large_22k", fbai ++ "convnext_large_22k_224.pth");
    ("convnext_xlarge_22k", fbai ++ "convnext_xlarge_22k_224.pth");
    ("convnext_tiny_k5_1k", release ++ "convnext_tiny_k5_1k_224_ema.pth");
    ("convnext_tiny_k3_1k", release ++ "convnext_tiny_k3_1k_224_ema.pth");
    ("convnext_tiny_k3_par1_2_1k", release ++ "convnext_tiny_k3_par1_2_1k_224_ema.pth");
    ("convnext_tiny_k3_par3_8_1k", release ++ "convnext_tiny_k3_par3_8_1k_224_ema.pth");
    ("convnext_tiny_k3_par1_4_1k", release ++ "convnext_tiny_k3_par1_4_1k_224_ema.pth");
    ("convnext_tiny_k3_par1_8_1k", release ++ "convnext_tiny_k3_par1_8_1k_224_ema.pth");
    ("convnext_tiny_k3_par1_16_1k", release ++ "convnext_tiny_k3_par1_16_1k_224_ema.pth")
  ]%string.

(** [d[key]] on a dict *)
Fixpoint dict_get (d : list (string * string)) (key : string) : result string :=
  match d with
  | [] => Err (KeyError key)
  | (k, v) :: r => if String.eqb k key then Ok v else dict_get r key
  end.

(** The keyword arguments a factory forwards to [ConvNeXt]. *)
Record kwargs : Type := mkKwargs {
  kw_in_chans : Z;
  kw_num_classes : Z;
  kw_drop_path_rate : Q;
  kw_layer_scale_init_value : Q;
  kw_head_init_scale : Q
}.

Definition default_kwargs : kwargs :=
  mkKwargs 3 1000 0 (1 # 1000000) 1.

Record Model : Type := mkModel {
  net : ConvNeXt;
  default_cfg : Cfg
}.

Definition no_22k_msg : string := "22k pre-trained model not available".

Section Factories.
(** Downloading a checkpoint and loading it into a model
    ([torch.hub.load_state_dict_from_url], [model.load_state_dict]). *)
Variable load_pretrained : string -> bool -> ConvNeXt -> result ConvNeXt.

(** What a factory does once [ConvNeXt(...)] has returned [model], for the
    configurations that ship ImageNet-1k weights only. *)
Definition finish_1k_only (model : ConvNeXt) (url_key : string)
    (pretrained in_22k : bool) : result Model :=
  py_assert (negb in_22k) no_22k_msg ;;;
  let cfg := _cfg "" in
  if pretrained
  then
    url <- dict_get model_urls url_key ;;
    model <- load_pretrained url false model ;;
    Ok (mkModel model cfg)
  else Ok (mkModel model cfg).

(** The body shared by [convnext_tiny_k5], [convnext_tiny_k3] and the
    [convnext_tiny_k3_par*] factories, which differ in [kernel_sizes],
    [conv_fns] and the key of the weights. *)
Definition tiny_1k_only (kernel_sizes : Z) (conv_fns : ConvFn)
    (url_key : string) (pretrained in_22k : bool) (kw : kwargs) : result Model :=
  model <- ConvNeXt_init (kw_in_chans kw) (kw_num_classes kw)
             [3; 3; 9; 3] [96; 192; 384; 768]
             (kw_drop_path_rate kw) (kw_layer_scale_init_value kw)
             (kw_head_init_scale kw) (Scalar kernel_sizes) (Scalar conv_fns) ;;
  finish_1k_only model url_key pretrained in_22k.

Definition convnext_tiny_k5 :=
  tiny_1k_only 5 nn_Conv2d "convnext_tiny_k5_1k".


End Factories.

(** ** The forward pass of the backbone *)

(** [x.mean([-2, -1])]: the mean over the two last axes, which are dropped. *)
Definition mean_last2 (x : Tensor) : result Tensor :=
  match rev (shape x) with
  | w :: h :: lead =>
      Ok (mkTensor (rev lead)
            (fun i => fmean (flat_map (fun a =>
                               map (fun b => val x (i ++ [a; b])) (range w))
                             (range h))))
  | _ => Err (IndexError "Dimension out of range")
  end.

(** The stem is a convolution followed by a normalisation, the later
    downsampling layers a normalisation followed by a convolution. *)
Definition DownsampleLayer_forward (l : DownsampleLayer) (x : Tensor)
  : result Tensor :=
  match l with
  | Stem c n => x <- Conv2d_forward c x ;; LayerNorm_forward n x
  | Downsample n c => x <- LayerNorm_forward n x ;; Conv2d_forward c x
  end.

(** A stage is the [nn.Sequential] of its blocks; block [j] of the stage
    takes its draw from [rnd j]. *)
Fixpoint stage_forward (blocks : list MSCABlock) (training : bool)
    (rnd : Z -> list Z -> F) (j : Z) (x : Tensor) : result Tensor :=
  match blocks with
  | [] => Ok x
  | b :: rest =>
      x <- MSCABlock_forward b training (rnd j) x ;;
      stage_forward rest training rnd (j + 1) x
  end.

(** The loop of [forward_features] over the stages. *)
Fixpoint forward_stages (m : ConvNeXt) (training : bool)
    (rnd : Z -> Z -> list Z -> F) (stage_ids : list Z) (x : Tensor)
  : result Tensor :=
  match stage_ids with
  | [] => Ok x
  | i :: rest =>
      d <- py_index (downsample_layers m) i ;;
      x <- DownsampleLayer_forward d x ;;
      s <- py_index (stages m) i ;;
      x <- stage_forward s training (rnd i) 0 x ;;
      forward_stages m training rnd rest x
  end.

Definition ConvNeXt_forward_features (m : ConvNeXt) (training : bool)
    (rnd : Z -> Z -> list Z -> F) (x : Tensor) : result Tensor :=
  x <- forward_stages m training rnd (range (num_stages m)) x ;;
  pooled <- mean_last2 x ;;
  nnLayerNorm_forward (final_norm m) pooled.

Definition ConvNeXt_forward (m : ConvNeXt) (training : bool)
    (rnd : Z -> Z -> list Z -> F) (x : Tensor) : result Tensor :=
  x <- ConvNeXt_forward_features m training rnd x ;;
  Linear_forward (head m) x.

(** ** The factories with both weight sets *)


Section OtherFactories.
Variable load_pretrained : string -> bool -> ConvNeXt -> result ConvNeXt.




End OtherFactories.

(** ** Vocabulary of the properties *)

(** A channel width the attention block accepts: positive and divisible by 8
    (hence by 4). *)
Definition valid_dim (dim : Z) : Prop := 0 < dim /\ dim mod 8 = 0.

(** The convolution functions of the named configurations: [nn.Conv2d], or a
    partial convolution with a ratio in (0, 1]. *)
Definition valid_conv_fn (cf : ConvFn) : Prop :=
  match cf with
  | nn_Conv2d => True
  | partial_PartialConv2d r => (0 < r)%Q /\ (r <= 1)%Q
  end.

(** A configuration the backbone is meant to accept: as many widths as
    depths, every width valid, no negative depth, a non-negative number of
    input channels, and one valid convolution function for all stages or one
    per stage. *)
Definition valid_conv_fns (conv_fns : scalar_or_seq ConvFn) (num_stages : nat)
  : Prop :=
  match conv_fns with
  | Scalar cf => valid_conv_fn cf
  | Seq l => List.length l = num_stages /\ Forall valid_conv_fn l
  end.

Definition valid_config (in_chans : Z) (depths dims : list Z)
    (conv_fns : scalar_or_seq ConvFn) : Prop :=
  0 <= in_chans
  /\ List.length dims = List.length depths
  /\ Forall valid_dim dims
  /\ Forall (fun d => 0 <= d) depths
  /\ valid_conv_fns conv_fns (List.length depths).


(** Two runs end the same way: both raise, or both return the same tensor. *)
Definition same_outcome (r1 r2 : result Tensor) : Prop :=
  match r1, r2 with
  | Ok a, Ok b => tensor_eq a b
  | Err _, Err _ => True
  | _, _ => False
  end.


Definition total_blocks (depths : list Z) : nat :=
  list_sum (map Z.to_nat depths).

(** [MSCABlock.forward] up to its first residual sum: the four branches,
    their concatenation, and the sum with the block's input. *)
Definition MSCABlock_first_residual (m : MSCABlock) (x : Tensor)
  : result Tensor :=
  let identity := x in
  x_split <- torch_chunk x 4 1 ;;
  conv_outs <- mapM (fun ib => xi <- py_index x_split (fst ib) ;;
                               ConvModule_forward (snd ib) xi)
                    (enumerate (conv_branches m)) ;;
  x3 <- py_index x_split 3 ;;
  let conv_outs := conv_outs ++ [x3] in
  fused <- torch_cat conv_outs 1 ;;
  tadd identity fused.

(** Named stages of the two forward passes.  [MSCABlock_fused_features] is
    [MSCABlock.forward] up to the channel-fusion convolution; [mlp_branch] is
    the inverted MLP of either block, from the permutation to channel-last up
    to the second linear layer, before any rescaling. *)
Definition MSCABlock_fused_features (m : MSCABlock) (x : Tensor)
  : result Tensor :=
  let identity := x in
  x_split <- torch_chunk x 4 1 ;;
  conv_outs <- mapM (fun ib => xi <- py_index x_split (fst ib) ;;
                               ConvModule_forward (snd ib) xi)
                    (enumerate (conv_branches m)) ;;
  x3 <- py_index x_split 3 ;;
  let conv_outs := conv_outs ++ [x3] in
  fused <- torch_cat conv_outs 1 ;;
  fused <- tadd identity fused ;;
  fmean1 <- mean_keepdim fused 1 ;;
  attn_map <- Attn_forward (attn m) fmean1 ;;
  attended <- tmul fused attn_map ;;
  fused_features <- torch_cat [identity; attended] 1 ;;
  Conv2d_forward (channel_fusion m) fused_features.

Definition mlp_branch (norm : LayerNorm) (pwconv1 pwconv2 : Linear)
    (x : Tensor) : result Tensor :=
  x <- permute x [0; 2; 3; 1]%nat ;;
  x <- LayerNorm_forward norm x ;;
  x <- Linear_forward pwconv1 x ;;
  let x := tmap fgelu x in
  Linear_forward pwconv2 x.

(** [if self.gamma is not None: x = self.gamma * x] *)
Definition layer_scale (gamma : option Tensor) (x : Tensor) : result Tensor :=
  match gamma with
  | Some g => tmul g x
  | None => Ok x
  end.

(** The residual sum that closes both blocks: permute the branch back to
    channel-first, apply the stochastic-depth module, add to [base]. *)
Definition close_residual (dp : DropPathModule) (training : bool)
    (rnd : list Z -> F) (base branch : Tensor) : result Tensor :=
  x <- permute branch [0; 3; 1; 2]%nat ;;
  dx <- DropPathModule_forward dp training rnd x ;;
  tadd base dx.

End Model.

(** ** Concrete tensors and modules over the integer instance *)

Definition ZTensor : Type := @Tensor Z.

Definition ramp (s : list Z) : ZTensor :=
  mkTensor s (fun i => fold_left Z.add i 0).

Definition ex_input_8 : ZTensor := ramp [1; 8; 4; 4].
Definition ex_input_4 : ZTensor := ramp [1; 4; 5; 5].

Definition no_load : string -> bool -> @ConvNeXt Z -> result (@ConvNeXt Z) :=
  fun _ _ m => Ok m.

(** * Properties *)

Section Properties.
Context {F : Type} {ops : FloatOps F}.

(** ** The error monad *)

Lemma bind_Ok_inv {A B : Type} (r : result A) (k : A -> result B) (b : B) :
  bind r k = Ok b -> exists a, r = Ok a /\ k a = Ok b.
Proof.
  destruct r as [a|e]; simpl; intros H; [exists a; auto | discriminate].
Qed.

Lemma bind_ext {A B : Type} (r : result A) (k1 k2 : A -> result B) :
  (forall a, k1 a = k2 a) -> bind r k1 = bind r k2.
Proof.
  intros H; destruct r; simpl; auto.
Qed.

Lemma bind_assoc {A B C : Type} (r : result A) (f : A -> result B)
    (g : B -> result C) :
  bind (bind r f) g = bind r (fun a => bind (f a) g).
Proof.
  destruct r; reflexivity.
Qed.

Lemma not_ok_err {A : Type} (r : result A) :
  is_ok r = false -> exists e, r = Err e.
Proof.
  destruct r; simpl; intros H; [discriminate | eauto].
Qed.

Lemma bind_not_ok {A B : Type} (r : result A) (k : A -> result B) :
  (forall a, r = Ok a -> is_ok (k a) = false) -> is_ok (bind r k) = false.
Proof.
  destruct r; simpl; auto.
Qed.

(** Invert a hypothesis [bind r k = Ok b] into its two steps. *)
Ltac inv_bind H :=
  let a := fresh "a" in
  let Ha := fresh "Ha" in
  apply bind_Ok_inv in H; destruct H as (a & Ha & H); simpl in H.

(** ** Shapes and parameters *)

Lemma shape_eqb_eq (a b : list Z) : shape_eqb a b = true <-> a = b.
Proof.
  revert b; induction a as [|x a IH]; destruct b as [|y b]; simpl;
    try (split; [discriminate | discriminate]); [tauto|].
  rewrite andb_true_iff, Z.eqb_eq, IH.
  split; [intros [-> ->]; reflexivity | intros H; inversion H; auto].
Qed.

Lemma shape_eqb_refl (a : list Z) : shape_eqb a a = true.
Proof. apply shape_eqb_eq; reflexivity. Qed.

Lemma no_negative (s : list Z) :
  Forall (fun d => 0 <= d) s -> existsb (fun d => d <? 0) s = false.
Proof.
  induction 1 as [|d s Hd _ IH]; simpl; [reflexivity|].
  rewrite IH, orb_false_r. apply Z.ltb_ge; assumption.
Qed.

Lemma fresh_param_ok (s : list Z) :
  Forall (fun d => 0 <= d) s -> fresh_param s = Ok (mkTensor s (init_param s)).
Proof.
  intros H; unfold fresh_param; rewrite (no_negative s H); reflexivity.
Qed.

Lemma torch_full_ok (s : list Z) (v : F) :
  Forall (fun d => 0 <= d) s -> torch_full s v = Ok (mkTensor s (fun _ => v)).
Proof.
  intros H; unfold torch_full; rewrite (no_negative s H); reflexivity.
Qed.

Lemma Conv2d_init_ok (cin cout : Z) (ks st pd dl : Z * Z) (g : Z) :
  0 < g -> cin mod g = 0 -> cout mod g = 0 -> 0 <= cin -> 0 <= cout ->
  0 <= fst ks -> 0 <= snd ks ->
  Conv2d_init cin cout ks st pd dl g true
  = Ok (mkConv2d cin cout ks st pd dl g
          (mkTensor [cout; cin / g; fst ks; snd ks]
                    (init_param [cout; cin / g; fst ks; snd ks]))
          (Some (mkTensor [cout] (init_param [cout])))).
Proof.
  intros Hg Hi Ho Hci Hco Hk1 Hk2. unfold Conv2d_init.
  replace (g <=? 0) with false by (symmetry; apply Z.leb_gt; lia).
  rewrite Hi, Ho; simpl.
  rewrite fresh_param_ok.
  - simpl. rewrite fresh_param_ok by (repeat constructor; lia). reflexivity.
  - repeat constructor; try lia. apply Z.div_pos; lia.
Qed.

Lemma Linear_init_ok (i o : Z) :
  0 <= i -> 0 <= o ->
  Linear_init i o
  = Ok (mkLinear i o (mkTensor [o; i] (init_param [o; i]))
                 (mkTensor [o] (init_param [o]))).
Proof.
  intros Hi Ho; unfold Linear_init.
  rewrite !fresh_param_ok by (repeat constructor; lia). reflexivity.
Qed.

(** ** Truncation of a channel count scaled by a ratio *)

Lemma py_int_ratio_bounds (c : Z) (r : Q) :
  0 <= c -> (0 < r)%Q -> (r <= 1)%Q ->
  0 <= py_int (int_times_float c r) <= c.
Proof.
  intros Hc Hr0 Hr1.
  unfold py_int, int_times_float, Qmult, inject_Z; simpl.
  unfold Qlt in Hr0; unfold Qle in Hr1; simpl in Hr0, Hr1.
  split.
  - apply Z.quot_pos; nia.
  - apply Z.quot_le_upper_bound; nia.
Qed.

Lemma py_int_ratio_one (c : Z) : py_int (int_times_float c 1) = c.
Proof.
  unfold py_int, int_times_float, Qmult, inject_Z; simpl.
  rewrite Z.mul_1_r. apply Z.quot_1_r.
Qed.

(** ** Calling a convolution function *)

Lemma call_conv_fn_ok (cf : ConvFn) (c : Z) (ks pd : Z * Z) :
  valid_conv_fn cf -> 0 < c -> 0 <= fst ks -> 0 <= snd ks ->
  exists m, call_conv_fn cf c c ks pd c = Ok m.
Proof.
  intros Hcf Hc Hk1 Hk2. destruct cf as [|r]; simpl.
  - rewrite Conv2d_init_ok; try lia; [eexists; reflexivity | |];
      apply Z_mod_same_full.
  - destruct Hcf as [Hr0 Hr1]. unfold PartialConv2d_init.
    pose proof (py_int_ratio_bounds c r (Z.lt_le_incl _ _ Hc) Hr0 Hr1) as Hb.
    set (k := py_int (int_times_float c r)) in *.
    destruct (k =? 0) eqn:Ek.
    + apply Z.eqb_eq in Ek. rewrite Ek.
      rewrite Conv2d_init_ok; try lia; [eexists; reflexivity | reflexivity | reflexivity].
    + apply Z.eqb_neq in Ek.
      rewrite Conv2d_init_ok; try lia; [eexists; reflexivity | |];
        apply Z_mod_same_full.
Qed.

(** ** Construction of an attention block *)

(** The three branch convolutions that precede the assertions. *)
Lemma conv_branches_ok (dim : Z) (cf : ConvFn) :
  valid_dim dim -> valid_conv_fn cf ->
  exists bs,
    mapM (fun i =>
            if i =? 0
            then call_conv_fn cf (dim / 4) (dim / 4) (3, 3) (pair_of 1) (dim / 4)
            else if i =? 1
            then call_conv_fn cf (dim / 4) (dim / 4) (1, 11) (0, 5) (dim / 4)
            else call_conv_fn cf (dim / 4) (dim / 4) (11, 1) (5, 0) (dim / 4))
         (range 3) = Ok bs.
Proof.
  intros [Hpos Hmod] Hcf.
  assert (Hq : 0 < dim / 4).
  { apply Z.div_str_pos. pose proof (Z.mod_divide dim 8 ltac:(lia)) as [Hd _].
    destruct (Hd Hmod) as [q Hq]. lia. }
  change (range 3) with [0; 1; 2]. simpl.
  destruct (call_conv_fn_ok cf (dim / 4) (3, 3) (pair_of 1) Hcf Hq) as [m0 ->];
    simpl; try lia.
  destruct (call_conv_fn_ok cf (dim / 4) (1, 11) (0, 5) Hcf Hq) as [m1 ->];
    simpl; try lia.
  destruct (call_conv_fn_ok cf (dim / 4) (11, 1) (5, 0) Hcf Hq) as [m2 ->];
    simpl; try lia.
  eexists; reflexivity.
Qed.

Lemma kernel_checks_reject (ks : list Z) :
  ks <> [3; 11; 11] ->
  kernel_checks ks = Err (AssertionError kernel_count_msg)
  \/ kernel_checks ks = Err (AssertionError kernel_sizes_msg).
Proof.
  intros Hne. unfold kernel_checks.
  destruct ks as [|a [|b [|c [|d ks]]]]; try (left; reflexivity).
  - right. change (len [a; b; c] =? 3) with true. simpl.
    destruct (a =? 3) eqn:Ea; [|reflexivity].
    destruct (b =? 11) eqn:Eb; [|reflexivity].
    destruct (c =? 11) eqn:Ec; [|reflexivity].
    apply Z.eqb_eq in Ea, Eb, Ec. subst. contradiction.
  - left. unfold py_assert, len.
    replace (Z.of_nat (List.length (a :: b :: c :: d :: ks)) =? 3) with false;
      [reflexivity|].
    symmetry; apply Z.eqb_neq. simpl List.length. lia.
Qed.

Lemma MSCABlock_init_checks (dim : Z) (ks : list Z) (dp lsiv : Q) (cf : ConvFn)
    (e : exn) :
  kernel_checks ks = Err e ->
  is_ok (MSCABlock_init dim ks dp lsiv cf) = false.
Proof.
  intros Hk. unfold MSCABlock_init. apply bind_not_ok; intros bs _.
  rewrite Hk. reflexivity.
Qed.

Lemma MSCABlock_init_rejects (dim : Z) (ks : list Z) (dp lsiv : Q) (cf : ConvFn) :
  valid_dim dim -> valid_conv_fn cf -> ks <> [3; 11; 11] ->
  MSCABlock_init dim ks dp lsiv cf = Err (AssertionError kernel_count_msg)
  \/ MSCABlock_init dim ks dp lsiv cf = Err (AssertionError kernel_sizes_msg).
Proof.
  intros Hd Hcf Hne. unfold MSCABlock_init.
  destruct (conv_branches_ok dim cf Hd Hcf) as [bs ->]. simpl.
  destruct (kernel_checks_reject ks Hne) as [Hk|Hk]; rewrite Hk; auto.
Qed.

Lemma MSCABlock_init_accepts (dim : Z) (dp lsiv : Q) (cf : ConvFn) :
  valid_dim dim -> valid_conv_fn cf ->
  exists blk, MSCABlock_init dim [3; 11; 11] dp lsiv cf = Ok blk.
Proof.
  intros Hd Hcf. unfold MSCABlock_init.
  destruct (conv_branches_ok dim cf Hd Hcf) as [bs ->]. cbn [bind].
  change (kernel_checks [3; 11; 11]) with (Ok tt). cbn [bind].
  destruct Hd as [Hpos Hmod].
  assert (H8 : 0 <= dim / 8) by (apply Z.div_pos; lia).
  rewrite (Conv2d_init_ok dim (dim / 8)); cbn [bind fst snd pair_of];
    try lia; try apply Z.mod_1_r.
  unfold nnLayerNorm_init, torch_ones, torch_zeros.
  rewrite !torch_full_ok by (repeat constructor; lia). cbn [bind].
  rewrite (Conv2d_init_ok (dim / 8) dim); cbn [bind fst snd pair_of];
    try lia; try apply Z.mod_1_r.
  rewrite (Conv2d_init_ok (dim * 2) dim); cbn [bind fst snd pair_of];
    try lia; try apply Z.mod_1_r.
  unfold LayerNorm_init, torch_ones, torch_zeros.
  rewrite !torch_full_ok by (repeat constructor; lia). cbn [bind].
  change (negb (("channels_last" =? "channels_last")%string
                || ("channels_last" =? "channels_first")%string)) with false.
  cbn iota. cbn [bind].
  rewrite !Linear_init_ok by lia. cbn [bind].
  unfold scaled_ones, torch_ones.
  rewrite !torch_full_ok by (repeat constructor; lia). cbn [bind].
  destruct (Qgtb0 lsiv); cbn [bind]; eexists; reflexivity.
Qed.

(** C3. An attention block is constructed exactly for the kernel-size triplet
    [3, 11, 11]: at a valid channel width and with a convolution function of
    the named configurations, that triplet is accepted, every other list of
    kernel sizes is rejected by one of the two assertions of the constructor
    (so no block exists on which a forward pass could run), and [3, 7, 11]
    in particular fails the second assertion. *)
Theorem MSCABlock_kernel_triplet (dim : Z) (kernel_sizes : list Z)
    (drop_path layer_scale_init_value : Q) (conv_fn : ConvFn) :
  valid_dim dim -> valid_conv_fn conv_fn ->
  (is_ok (MSCABlock_init dim kernel_sizes drop_path layer_scale_init_value conv_fn)
   = true <-> kernel_sizes = [3; 11; 11])
  /\ (kernel_sizes <> [3; 11; 11] ->
      exists msg, MSCABlock_init dim kernel_sizes drop_path
                    layer_scale_init_value conv_fn = Err (AssertionError msg))
  /\ MSCABlock_init dim [3; 7; 11] drop_path layer_scale_init_value conv_fn
     = Err (AssertionError kernel_sizes_msg).
Proof.
  intros Hd Hcf. split; [|split].
  - split.
    + intros Hok.
      destruct (list_eq_dec Z.eq_dec kernel_sizes [3; 11; 11]) as [|Hne]; [assumption|].
      destruct (MSCABlock_init_rejects dim kernel_sizes drop_path
                  layer_scale_init_value conv_fn Hd Hcf Hne) as [H|H];
        rewrite H in Hok; discriminate.
    + intros ->.
      destruct (MSCABlock_init_accepts dim drop_path layer_scale_init_value
                  conv_fn Hd Hcf) as [blk ->].
      reflexivity.
  - intros Hne.
    destruct (MSCABlock_init_rejects dim kernel_sizes drop_path
                layer_scale_init_value conv_fn Hd Hcf Hne) as [H|H];
      eexists; exact H.
  - destruct (MSCABlock_init_rejects dim [3; 7; 11] drop_path
                layer_scale_init_value conv_fn Hd Hcf ltac:(discriminate))
      as [H|H]; [|exact H].
    exfalso. revert H. unfold MSCABlock_init.
    destruct (conv_branches_ok dim conv_fn Hd Hcf) as [bs ->].
    simpl. discriminate.
Qed.

(** ** Construction of the backbone *)

Lemma bind_not_ok_l {A B : Type} (r : result A) (k : A -> result B) :
  is_ok r = false -> is_ok (bind r k) = false.
Proof.
  destruct r; simpl; [discriminate | reflexivity].
Qed.

Lemma range_pos (d : Z) : 0 < d -> exists l, range d = 0 :: l.
Proof.
  intros Hd. unfold range.
  destruct (Z.to_nat d) as [|n] eqn:E; [lia|].
  simpl. eexists; reflexivity.
Qed.

Lemma py_index_nth {A : Type} (l : list A) (n : nat) (a : A) :
  nth_error l n = Some a -> py_index l (Z.of_nat n) = Ok a.
Proof.
  intros Hn. unfold py_index, len.
  assert (n < List.length l)%nat by (apply nth_error_Some; congruence).
  destruct (Z.of_nat n <? 0) eqn:E1; [apply Z.ltb_lt in E1; lia|].
  cbv zeta. rewrite E1.
  destruct (Z.of_nat (List.length l) <=? Z.of_nat n) eqn:E2;
    [apply Z.leb_le in E2; lia|].
  simpl. rewrite Nat2Z.id, Hn. reflexivity.
Qed.

Lemma positive_depth_index (depths : list Z) :
  Exists (fun d => 0 < d) depths ->
  Exists (fun i => exists d, py_index depths i = Ok d /\ 0 < d)
         (range (len depths)).
Proof.
  intros H. apply Exists_exists in H. destruct H as (d & Hin & Hd).
  apply In_nth_error in Hin. destruct Hin as [n Hn].
  apply Exists_exists. exists (Z.of_nat n). split.
  - unfold range, len. rewrite Nat2Z.id. apply in_map, in_seq.
    assert (n < List.length depths)%nat by (apply nth_error_Some; congruence).
    lia.
  - exists d. split; [apply py_index_nth; assumption | assumption].
Qed.

(** The stage loop cannot finish once some stage has a block, when the block
    constructor rejects the kernel sizes the loop passes. *)
Lemma build_stages_not_ok {B : Type} (ctor : block_ctor B)
    (dims depths : list Z) (dp_rates : list Q) (lsiv : Q) (cfs : list ConvFn)
    (ids : list Z) :
  (forall dim dp cf, is_ok (ctor dim [3; 5; 7] dp lsiv cf) = false) ->
  Exists (fun i => exists d, py_index depths i = Ok d /\ 0 < d) ids ->
  forall cur,
    is_ok (build_stages ctor dims depths dp_rates lsiv cfs ids cur) = false.
Proof.
  intros Hctor Hex. induction Hex as [i ids (d & Hi & Hd) | i ids _ IH];
    intros cur; simpl.
  - rewrite Hi. cbn [bind].
    destruct (range_pos d Hd) as [l ->].
    apply bind_not_ok_l. cbn [mapM].
    apply bind_not_ok_l.
    apply bind_not_ok; intros dim _.
    apply bind_not_ok; intros dp _.
    apply bind_not_ok; intros cf _.
    apply Hctor.
  - apply bind_not_ok; intros n _.
    apply bind_not_ok; intros stage _.
    apply bind_not_ok; intros n' _.
    apply bind_not_ok_l. apply IH.
Qed.

Lemma MSCABlock_init_357 (dim : Z) (dp lsiv : Q) (cf : ConvFn) :
  is_ok (MSCABlock_init dim [3; 5; 7] dp lsiv cf) = false.
Proof.
  apply MSCABlock_init_checks with (e := AssertionError kernel_sizes_msg).
  reflexivity.
Qed.

(** ** The forward pass of the attention block *)

Lemma Conv2d_init_in (cin cout : Z) (ks st pd dl : Z * Z) (g : Z) (b : bool)
    (c : Conv2d) :
  Conv2d_init cin cout ks st pd dl g b = Ok c ->
  in_channels c = cin /\ out_channels c = cout /\ kernel_size c = ks
  /\ stride c = st /\ padding c = pd /\ dilation c = dl /\ groups c = g.
Proof.
  unfold Conv2d_init.
  destruct (g <=? 0); [discriminate|].
  destruct (negb (cin mod g =? 0)); [discriminate|].
  destruct (negb (cout mod g =? 0)); [discriminate|].
  intros H. inv_bind H. inv_bind H. inversion H; subst; simpl. tauto.
Qed.

Lemma MSCABlock_init_attn (dim : Z) (ks : list Z) (dp lsiv : Q) (cf : ConvFn)
    (blk : MSCABlock) :
  MSCABlock_init dim ks dp lsiv cf = Ok blk ->
  in_channels (attn_conv1 (attn blk)) = dim.
Proof.
  unfold MSCABlock_init. intros H.
  do 10 (apply bind_Ok_inv in H; destruct H as (? & ? & H)).
  inversion H; subst; cbn [attn attn_conv1].
  eapply Conv2d_init_in; eassumption.
Qed.

Lemma get_set_same (s : list Z) (d : nat) (v : Z) :
  (d < List.length s)%nat -> get (set s d v) d = v.
Proof.
  revert d; induction s as [|x s IH]; intros [|d] Hd; simpl in *; try lia.
  - reflexivity.
  - apply IH; lia.
Qed.

Lemma mean_keepdim_shape (x y : Tensor) (d : nat) :
  mean_keepdim x d = Ok y ->
  (d < rank x)%nat /\ shape y = set (shape x) d 1.
Proof.
  unfold mean_keepdim. destruct (rank x <=? d)%nat eqn:E; [discriminate|].
  apply Nat.leb_gt in E. intros H; inversion H; subst; simpl. auto.
Qed.

Lemma Conv2d_forward_channels (m : Conv2d) (x y : Tensor) :
  Conv2d_forward m x = Ok y -> get (shape x) 1 = in_channels m.
Proof.
  unfold Conv2d_forward.
  destruct (shape x) as [|n [|c [|h [|w [|]]]]]; try discriminate.
  destruct (c =? in_channels m) eqn:E; [|discriminate].
  intros _. apply Z.eqb_eq in E. exact E.
Qed.

(** The attention gate receives the one-channel mean of the fused tensor, but
    its first convolution expects as many channels as the block is wide. *)
Lemma attention_gate_raises (m : MSCABlock) (fused : Tensor) :
  in_channels (attn_conv1 (attn m)) <> 1 ->
  is_ok (fmean1 <- mean_keepdim fused 1 ;; Attn_forward (attn m) fmean1) = false.
Proof.
  intros Hne. apply bind_not_ok; intros fm Hfm.
  apply mean_keepdim_shape in Hfm. destruct Hfm as [Hr Hs].
  unfold Attn_forward. apply bind_not_ok_l.
  destruct (Conv2d_forward (attn_conv1 (attn m)) fm) as [y|e] eqn:E;
    [|reflexivity].
  apply Conv2d_forward_channels in E.
  rewrite Hs, get_set_same in E by exact Hr. congruence.
Qed.

Lemma MSCABlock_forward_not_ok (m : MSCABlock) (training : bool)
    (rnd : list Z -> F) (x : Tensor) :
  in_channels (attn_conv1 (attn m)) <> 1 ->
  is_ok (MSCABlock_forward m training rnd x) = false.
Proof.
  intros Hne. unfold MSCABlock_forward. cbv zeta.
  apply bind_not_ok; intros x_split _.
  apply bind_not_ok; intros conv_outs _.
  apply bind_not_ok; intros x3 _.
  apply bind_not_ok; intros fused0 _.
  apply bind_not_ok; intros fused _.
  pose proof (attention_gate_raises m fused Hne) as Hg.
  destruct (mean_keepdim fused 1) as [fm|e]; [|reflexivity].
  cbn [bind] in *. apply bind_not_ok_l. exact Hg.
Qed.

(** When the first residual sum is computed, the exception of the forward
    pass is the one of the attention gate. *)
Lemma MSCABlock_forward_gate (m : MSCABlock) (training : bool)
    (rnd : list Z -> F) (x fused fmean1 : @Tensor F) (e : exn) :
  MSCABlock_first_residual m x = Ok fused ->
  mean_keepdim fused 1 = Ok fmean1 ->
  Attn_forward (attn m) fmean1 = Err e ->
  MSCABlock_forward m training rnd x = Err e.
Proof.
  unfold MSCABlock_first_residual, MSCABlock_forward. cbv zeta.
  intros H Hm Ha.
  apply bind_Ok_inv in H. destruct H as (x_split & -> & H). cbn [bind].
  apply bind_Ok_inv in H. destruct H as (conv_outs & -> & H). cbn [bind].
  apply bind_Ok_inv in H. destruct H as (x3 & -> & H). cbn [bind].
  apply bind_Ok_inv in H. destruct H as (fused0 & -> & H). cbn [bind].
  rewrite H. cbn [bind]. rewrite Hm. cbn [bind]. rewrite Ha. reflexivity.
Qed.

(** C2. A block constructed at a valid channel width raises on every input
    of shape [N, dim, H, W]: the forward pass never returns a tensor, of the
    input's shape or of any other. *)
Theorem MSCABlock_forward_raises (dim : Z) (drop_path layer_scale_init_value : Q)
    (conv_fn : ConvFn) (blk : MSCABlock) (training : bool) (rnd : list Z -> F)
    (x : @Tensor F) (n h w : Z) :
  valid_dim dim ->
  MSCABlock_init dim [3; 11; 11] drop_path layer_scale_init_value conv_fn = Ok blk ->
  shape x = [n; dim; h; w] ->
  exists e, MSCABlock_forward blk training rnd x = Err e.
Proof.
  intros [Hpos Hmod] Hinit _. apply not_ok_err.
  apply MSCABlock_forward_not_ok.
  rewrite (MSCABlock_init_attn _ _ _ _ _ _ Hinit).
  intros ->. discriminate.
Qed.

(** ** Partial convolution *)

Lemma torch_split2 (x : @Tensor F) (n c h w a b : Z) :
  shape x = [n; c; h; w] -> 0 <= a -> 0 <= b -> a + b = c ->
  torch_split x [a; b] 1 = Ok [torch_narrow x 1 0 a; torch_narrow x 1 a b].
Proof.
  intros Hs Ha Hb Hc. unfold torch_split, rank. rewrite Hs. simpl.
  destruct (a <? 0) eqn:Ea; [apply Z.ltb_lt in Ea; lia|].
  destruct (b <? 0) eqn:Eb; [apply Z.ltb_lt in Eb; lia|].
  simpl. unfold sumZ, get; simpl.
  destruct (a + b =? c) eqn:Ec; [|apply Z.eqb_neq in Ec; lia].
  reflexivity.
Qed.

Lemma Conv2d_forward_shape (m : Conv2d) (x y : @Tensor F) :
  Conv2d_forward m x = Ok y ->
  exists n h w,
    shape x = [n; in_channels m; h; w]
    /\ shape y = [n; out_channels m;
                  conv_out_size h (fst (kernel_size m)) (fst (stride m))
                                (fst (padding m)) (fst (dilation m));
                  conv_out_size w (snd (kernel_size m)) (snd (stride m))
                                (snd (padding m)) (snd (dilation m))]
    /\ val y = conv_val m x.
Proof.
  unfold Conv2d_forward.
  destruct (shape x) as [|n [|c [|h [|w [|]]]]]; try discriminate.
  destruct (c =? in_channels m) eqn:E; [|discriminate].
  apply Z.eqb_eq in E. subst c. cbn [negb].
  destruct (_ || _); [discriminate|].
  destruct (_ || _); [discriminate|].
  intros H; inversion H; subst; simpl. exists n, h, w. auto.
Qed.

(** Concatenating a slice of shape [(n, a, h, w)] with a tensor along the
    channel axis. *)
Lemma torch_cat2 (t z : @Tensor F) (n a h w n' b h' w' : Z) :
  shape t = [n; a; h; w] -> shape z = [n'; b; h'; w'] ->
  torch_cat [t; z] 1
  = if shape_eqb [n; 0; h; w] [n'; 0; h'; w']
    then Ok (mkTensor [n; a + b; h; w] (cat_val [t; z] 1))
    else Err (RuntimeError "Sizes of tensors must match except in the cat dimension").
Proof.
  intros Ht Hz. unfold torch_cat. cbn [filter].
  rewrite Ht. cbn [shape_eqb]. rewrite andb_false_r. cbn [negb].
  rewrite Hz. cbn [shape_eqb]. rewrite andb_false_r. cbn [negb].
  generalize (cat_val [t; z] 1); intros cv.
  unfold rank. cbn [forallb map]. unfold same_except, sumZ, get.
  rewrite Ht, Hz. simpl.
  rewrite andb_true_r. destruct (_ && _); reflexivity.
Qed.


Lemma in_bounds4 (a b c d : Z) (i : list Z) :
  in_bounds [a; b; c; d] i ->
  exists i0 i1 i2 i3,
    i = [i0; i1; i2; i3]
    /\ 0 <= i0 < a /\ 0 <= i1 < b /\ 0 <= i2 < c /\ 0 <= i3 < d.
Proof.
  unfold in_bounds. intros H.
  inversion H as [|i0 ? r0 ? H0 H']; subst.
  inversion H' as [|i1 ? r1 ? H1 H'']; subst.
  inversion H'' as [|i2 ? r2 ? H2 H''']; subst.
  inversion H''' as [|i3 ? r3 ? H3 H4]; subst.
  inversion H4; subst.
  exists i0, i1, i2, i3. auto.
Qed.

(** A convolution reads the whole-width slice [x[:, 0:C]] as it reads [x]. *)
Lemma conv_val_full_slice (m : Conv2d) (x : @Tensor F) (n c h w : Z)
    (i : list Z) :
  shape x = [n; c; h; w] ->
  conv_val m (torch_narrow x 1 0 c) i = conv_val m x i.
Proof.
  intros Hx. unfold conv_val. cbv zeta.
  assert (Hp : forall a b y z,
             padded (torch_narrow x 1 0 c) [a; b; y; z] = padded x [a; b; y; z]).
  { intros a b y z. unfold padded, get. simpl. rewrite Hx. simpl.
    rewrite Z.add_0_r. reflexivity. }
  assert (Hl :
    flat_map (fun c0 =>
      flat_map (fun a =>
        map (fun b =>
          fmul (val (conv_weight m) [get i 1; c0; a; b])
               (padded (torch_narrow x 1 0 c)
                  [get i 0;
                   get i 1 / (out_channels m / groups m)
                     * (in_channels m / groups m) + c0;
                   get i 2 * fst (stride m) + a * fst (dilation m)
                     - fst (padding m);
                   get i 3 * snd (stride m) + b * snd (dilation m)
                     - snd (padding m)]))
          (range (snd (kernel_size m))))
        (range (fst (kernel_size m))))
      (range (in_channels m / groups m))
    = flat_map (fun c0 =>
      flat_map (fun a =>
        map (fun b =>
          fmul (val (conv_weight m) [get i 1; c0; a; b])
               (padded x
                  [get i 0;
                   get i 1 / (out_channels m / groups m)
                     * (in_channels m / groups m) + c0;
                   get i 2 * fst (stride m) + a * fst (dilation m)
                     - fst (padding m);
                   get i 3 * snd (stride m) + b * snd (dilation m)
                     - snd (padding m)]))
          (range (snd (kernel_size m))))
        (range (fst (kernel_size m))))
      (range (in_channels m / groups m))).
  { apply flat_map_ext; intros c0. apply flat_map_ext; intros a.
    apply map_ext; intros b. rewrite Hp. reflexivity. }
  rewrite Hl. reflexivity.
Qed.

Lemma Conv2d_forward_full_slice (m : Conv2d) (x : @Tensor F) (n c h w : Z) :
  shape x = [n; c; h; w] ->
  match Conv2d_forward m x with
  | Ok y => exists y', Conv2d_forward m (torch_narrow x 1 0 c) = Ok y'
                       /\ shape y' = shape y
                       /\ forall i, val y' i = val y i
  | Err e => Conv2d_forward m (torch_narrow x 1 0 c) = Err e
  end.
Proof.
  intros Hx. unfold Conv2d_forward. cbn [shape torch_narrow].
  rewrite Hx. cbn [set].
  destruct (negb (c =? in_channels m)); [reflexivity|].
  destruct (_ || _); [reflexivity|].
  destruct (_ || _); [reflexivity|].
  eexists; split; [reflexivity|]. split; [reflexivity|].
  intros i. cbn [val]. apply (conv_val_full_slice m x n c h w i Hx).
Qed.

(** C5, for convolutions that keep the spatial size. With ratio 1.0 a
    partial convolution holds exactly the
    standard convolution built from the same arguments, its identity slice
    is empty, and on an input of shape [N, C, H, W]:
    - where the standard convolution returns a tensor of the input's spatial
      size, the partial convolution returns the same tensor;
    - where the standard convolution raises, the partial one raises the same
      exception;
    - where the standard convolution changes the spatial size, the partial
      convolution raises, at the concatenation with the empty slice. *)
Theorem PartialConv2d_ratio_one (cin cout : Z) (ks st pd dl : Z * Z) (g : Z)
    (b : bool) (pc : PartialConv2d) (c : Conv2d) (x : @Tensor F) (n h w : Z) :
  PartialConv2d_init cin cout ks 1 st pd dl g b = Ok pc ->
  Conv2d_init cin cout ks st pd dl g b = Ok c ->
  0 <= cin ->
  shape x = [n; cin; h; w] ->
  conv pc = c
  /\ split_indices pc = (0, cin)
  /\ (forall y, Conv2d_forward c x = Ok y -> shape y = [n; cout; h; w] ->
        same_outcome (PartialConv2d_forward pc x) (Ok y))
  /\ (forall e, Conv2d_forward c x = Err e -> PartialConv2d_forward pc x = Err e)
  /\ (forall y, Conv2d_forward c x = Ok y -> shape y <> [n; cout; h; w] ->
        exists e, PartialConv2d_forward pc x = Err e).
Proof.
  intros Hpc Hc Hcin Hx.
  assert (Hg : 0 < g).
  { unfold Conv2d_init in Hc. destruct (g <=? 0) eqn:E; [discriminate|].
    apply Z.leb_gt in E. exact E. }
  unfold PartialConv2d_init in Hpc. cbv zeta in Hpc.
  rewrite !py_int_ratio_one in Hpc.
  replace (g =? 0) with false in Hpc by (symmetry; apply Z.eqb_neq; lia).
  rewrite Hc in Hpc. cbn [bind] in Hpc.
  replace (cin - cin) with 0 in Hpc by lia.
  inversion Hpc; subst pc; clear Hpc. cbn [conv split_indices].
  split; [reflexivity|]. split; [reflexivity|].
  assert (Hfw : PartialConv2d_forward (mkPartialConv2d c (0, cin)) x
                = (y <- Conv2d_forward c (torch_narrow x 1 0 cin) ;;
                   torch_cat [torch_narrow x 1 0 0; y] 1)).
  { unfold PartialConv2d_forward. cbn [split_indices fst snd conv].
    rewrite (torch_split2 x n cin h w) by (auto; lia). reflexivity. }
  rewrite Hfw; clear Hfw.
  assert (Hid : shape (torch_narrow x 1 0 0) = [n; 0; h; w])
    by (simpl; rewrite Hx; reflexivity).
  destruct (Conv2d_init_in _ _ _ _ _ _ _ _ _ Hc) as (Hin & Hout & _).
  pose proof (Conv2d_forward_full_slice c x n cin h w Hx) as Hs.
  split; [|split].
  - intros y Hy Hsy. rewrite Hy in Hs.
    destruct Hs as (y' & Hy' & Hsh & Hv). rewrite Hy'. cbn [bind].
    rewrite Hsy in Hsh.
    rewrite (torch_cat2 _ y' _ _ _ _ _ _ _ _ Hid Hsh).
    rewrite shape_eqb_refl. cbn [same_outcome]. split.
    + cbn [shape]. rewrite Hsy. reflexivity.
    + cbn [shape val]. intros i Hi. apply in_bounds4 in Hi.
      destruct Hi as (i0 & i1 & i2 & i3 & -> & _ & H1 & _).
      simpl. rewrite Hx, Hsh. unfold get. simpl.
      destruct (i1 <? 0) eqn:E0; [apply Z.ltb_lt in E0; lia|].
      rewrite ?Z.sub_0_r.
      destruct (i1 <? cout) eqn:E1; [|apply Z.ltb_ge in E1; lia].
      apply Hv.
  - intros e He. rewrite He in Hs. rewrite Hs. reflexivity.
  - intros y Hy Hsy. rewrite Hy in Hs.
    destruct Hs as (y' & Hy' & Hsh & _). rewrite Hy'. cbn [bind].
    destruct (Conv2d_forward_shape _ _ _ Hy) as (n' & h' & w' & Hs1 & Hs2 & _).
    rewrite Hx in Hs1. inversion Hs1; subst n' h' w'; clear Hs1.
    rewrite Hs2 in Hsh.
    rewrite (torch_cat2 _ y' _ _ _ _ _ _ _ _ Hid Hsh).
    destruct (shape_eqb _ _) eqn:Eq; [|eexists; reflexivity].
    exfalso. apply Hsy. apply shape_eqb_eq in Eq.
    injection Eq as Hh Hw. rewrite Hs2, Hout, <- Hh, <- Hw. reflexivity.
Qed.

(** ** Channel-first layer normalisation *)

Ltac broadcast_cases :=
  unfold broadcast_shapes; cbn [rev app broadcast_rev bind];
  repeat (rewrite ?Z.eqb_refl; cbn [bind rev app];
          match goal with
          | |- context [?a =? ?b] =>
              destruct (Z.eqb_spec a b); subst; cbn [bind rev app]
          end);
  rewrite ?Z.eqb_refl; cbn [bind rev app]; try reflexivity.

Lemma broadcast_keepdim (n c h w : Z) :
  broadcast_shapes [n; c; h; w] [n; 1; h; w] = Ok [n; c; h; w].
Proof. broadcast_cases. Qed.

Lemma broadcast_per_channel_l (n c h w : Z) :
  broadcast_shapes [c; 1; 1] [n; c; h; w] = Ok [n; c; h; w].
Proof. broadcast_cases. Qed.

Lemma broadcast_per_channel_r (n c h w : Z) :
  broadcast_shapes [n; c; h; w] [c; 1; 1] = Ok [n; c; h; w].
Proof. broadcast_cases. Qed.

Lemma pick_index (d i : Z) : 0 <= i < d -> (if d =? 1 then 0 else i) = i.
Proof.
  intros H. destruct (Z.eqb_spec d 1); lia.
Qed.

Lemma in_range (n k : Z) : In k (range n) -> 0 <= k < n.
Proof.
  unfold range. intros H. apply in_map_iff in H.
  destruct H as (m & <- & Hm). apply in_seq in Hm. lia.
Qed.

(** C6. In channel-first mode, on an input of shape [N, C, H, W] with as many
    channels as the layer normalises, the result has the input's shape and its
    value at batch index [i], channel [k], position [(j, l)] is
    [weight[k] * ((x - mean) / sqrt(var + eps)) + bias[k]], where [mean] is
    the mean over the channel axis at that batch index and position, and
    [var] the mean of the squared deviations from it (biased variance). *)
Theorem LayerNorm_channels_first (m : LayerNorm) (x : @Tensor F) (n c h w : Z) :
  data_format m = "channels_first"%string ->
  shape (ln_weight m) = [c] -> shape (ln_bias m) = [c] ->
  shape x = [n; c; h; w] ->
  exists y,
    LayerNorm_forward m x = Ok y
    /\ shape y = shape x
    /\ forall i k j l,
         0 <= i < n -> 0 <= k < c -> 0 <= j < h -> 0 <= l < w ->
         let chans := map (fun k' => val x [i; k'; j; l]) (range c) in
         let mean := fmean chans in
         let var := fmean (map (fun v => fmul (fsub v mean) (fsub v mean)) chans) in
         val y [i; k; j; l]
         = fadd (fmul (val (ln_weight m) [k])
                      (fdiv (fsub (val x [i; k; j; l]) mean)
                            (fsqrt (fadd var (of_float (ln_eps m))))))
                (val (ln_bias m) [k]).
Proof.
  intros Hfmt Hw Hb Hx. unfold LayerNorm_forward. rewrite Hfmt.
  change (String.eqb "channels_first" "channels_last") with false.
  change (String.eqb "channels_first" "channels_first") with true.
  cbv iota.
  unfold mean_keepdim, tsub, tdiv, tmul, tadd, tbinop, rank, tpow2, tmap,
    tadd_scalar, index_None_None.
  cbn [shape]. rewrite Hx, Hw, Hb.
  repeat first
    [ rewrite broadcast_keepdim
    | rewrite broadcast_per_channel_l
    | rewrite broadcast_per_channel_r
    | progress cbn [Datatypes.length Nat.leb set app bind shape] ].
  eexists; split; [reflexivity|]. split; [reflexivity|].
  intros i k j l Hi Hk Hj Hl. cbn [val].
  unfold bidx, get. simpl.
  rewrite !(pick_index n i Hi), !(pick_index c k Hk), !(pick_index h j Hj),
    !(pick_index w l Hl).
  unfold rank. rewrite Hw, Hb. cbn [Datatypes.length firstn].
  rewrite map_map.
  do 6 f_equal. apply map_ext_in. intros k' Hk'.
  apply in_range in Hk'. rewrite (pick_index c k' Hk'). reflexivity.
Qed.

(** ** Stochastic-depth rates *)

Lemma sumZ_from (l : list Z) (a : Z) : fold_left Z.add l a = a + sumZ l.
Proof.
  unfold sumZ. revert a; induction l as [|x l IH]; intros a; simpl; [lia|].
  rewrite IH, (IH x). lia.
Qed.

Lemma sumZ_cons (x : Z) (l : list Z) : sumZ (x :: l) = x + sumZ l.
Proof. unfold sumZ at 1. simpl. apply sumZ_from. Qed.

Lemma sumZ_total (depths : list Z) :
  Forall (fun d => 0 <= d) depths ->
  sumZ depths = Z.of_nat (total_blocks depths).
Proof.
  unfold total_blocks.
  induction 1 as [|d l Hd _ IH]; [reflexivity|].
  rewrite sumZ_cons, IH. simpl. lia.
Qed.


Lemma py_index_in_range {A : Type} (l : list A) (n : nat) (d : A) :
  (n < List.length l)%nat -> py_index l (Z.of_nat n) = Ok (nth n l d).
Proof.
  intros H. apply py_index_nth. apply nth_error_nth'. exact H.
Qed.




Lemma skipn_nth_cons {A : Type} (l : list A) (n : nat) (a : A) :
  nth_error l n = Some a -> skipn n l = a :: skipn (S n) l.
Proof.
  revert l; induction n as [|n IH]; intros [|x l] H; simpl in *;
    try discriminate.
  - inversion H; reflexivity.
  - apply IH; assumption.
Qed.


Lemma nth_error_range (n k : nat) :
  (k < n)%nat -> nth_error (map Z.of_nat (seq 0 n)) k = Some (Z.of_nat k).
Proof.
  intros H. rewrite nth_error_map, nth_error_seq.
  destruct (Nat.ltb_spec k n); [reflexivity | lia].
Qed.

(** The points of [torch.linspace(0, R, n)]. *)
Lemma torch_linspace_points (R : Q) (n : Z) :
  0 <= n ->
  exists l,
    torch_linspace 0 R n = Ok l
    /\ List.length l = Z.to_nat n
    /\ forall k, (k < Z.to_nat n)%nat ->
         (k = O -> nth k l 0 == 0)%Q
         /\ (1 < n ->
             (nth k l 0 == R * inject_Z (Z.of_nat k) / inject_Z (n - 1))%Q).
Proof.
  intros Hn. unfold torch_linspace.
  destruct (n <? 0) eqn:E0; [apply Z.ltb_lt in E0; lia|].
  destruct (n =? 1) eqn:E1.
  - apply Z.eqb_eq in E1. subst n. eexists; split; [reflexivity|].
    split; [reflexivity|]. intros k Hk. replace k with O by lia. simpl.
    split; [reflexivity | lia].
  - apply Z.eqb_neq in E1. eexists; split; [reflexivity|]. split.
    + unfold range. rewrite !length_map, length_seq. reflexivity.
    + intros k Hk. unfold range.
      set (f := fun i : Z => if i <? n / 2
                 then (0 + (R - 0) / inject_Z (n - 1) * inject_Z i)%Q
                 else (R - (R - 0) / inject_Z (n - 1) * inject_Z (n - i - 1))%Q).
      assert (Hnth : nth k (map f (map Z.of_nat (seq 0 (Z.to_nat n)))) 0%Q
                     = f (Z.of_nat k)).
      { apply nth_error_nth. rewrite nth_error_map, nth_error_range by exact Hk.
        reflexivity. }
      rewrite Hnth. clear Hnth.
      assert (Hn1 : ~ (inject_Z (n - 1) == 0)%Q).
      { unfold Qeq, inject_Z; simpl. lia. }
      assert (Hsub : (inject_Z (n - Z.of_nat k - 1)
                      == inject_Z (n - 1) - inject_Z (Z.of_nat k))%Q).
      { replace (n - Z.of_nat k - 1) with ((n - 1) + - Z.of_nat k) by lia.
        rewrite inject_Z_plus, inject_Z_opp. reflexivity. }
      split.
      * intros ->. unfold f. simpl Z.of_nat.
        destruct (0 <? n / 2) eqn:Eh.
        -- change (inject_Z 0) with 0%Q. field. exact Hn1.
        -- apply Z.ltb_ge in Eh.
           assert (n = 0) by (destruct (Z.eq_dec n 0); [assumption|];
                              assert (2 <= n) by lia;
                              assert (1 <= n / 2) by (apply Z.div_le_lower_bound; lia);
                              lia).
           lia.
      * intros _. unfold f.
        destruct (Z.of_nat k <? n / 2).
        -- field. exact Hn1.
        -- rewrite Hsub. field. exact Hn1.
Qed.


(** ** The backbone on valid configurations *)

Lemma mapM_ok {A B : Type} (f : A -> result B) (l : list A) :
  (forall a, In a l -> exists b, f a = Ok b) ->
  exists bs, mapM f l = Ok bs.
Proof.
  induction l as [|a l IH]; intros H; simpl; [eexists; reflexivity|].
  destruct (H a (or_introl eq_refl)) as [b ->]. cbn [bind].
  destruct IH as [bs ->]; [intros a' Ha'; apply H; right; exact Ha'|].
  eexists; reflexivity.
Qed.

Lemma valid_dim_nonneg (d : Z) : valid_dim d -> 0 <= d.
Proof. intros [H _]; lia. Qed.

Lemma LayerNorm_init_ok (d : Z) (eps : Q) :
  0 <= d -> exists m, LayerNorm_init d eps "channels_first" = Ok m.
Proof.
  intros Hd. unfold LayerNorm_init, torch_ones, torch_zeros.
  rewrite !torch_full_ok by (repeat constructor; lia). cbn [bind].
  eexists; reflexivity.
Qed.

Lemma nth_valid_dim (dims : list Z) (n : nat) :
  Forall valid_dim dims -> (n < List.length dims)%nat ->
  valid_dim (nth n dims 0).
Proof.
  intros H Hn. rewrite Forall_forall in H. apply H. apply nth_In. exact Hn.
Qed.

Lemma downsample_layers_ok (dims : list Z) (k : Z) :
  Forall valid_dim dims -> k <= len dims - 1 ->
  exists downs,
    mapM (fun i =>
            di <- py_index dims i ;;
            n <- LayerNorm_init di (1 # 1000000) "channels_first" ;;
            di <- py_index dims i ;;
            di1 <- py_index dims (i + 1) ;;
            c <- Conv2d_init di di1 (pair_of 2) (pair_of 2) (0, 0) (1, 1) 1 true ;;
            Ok (Downsample n c))
         (range k) = Ok downs.
Proof.
  intros Hv Hk. apply mapM_ok. intros i Hi. apply in_range in Hi.
  unfold len in Hk.
  replace i with (Z.of_nat (Z.to_nat i)) by lia.
  rewrite (py_index_in_range dims (Z.to_nat i) 0) by lia. cbn [bind].
  pose proof (nth_valid_dim dims (Z.to_nat i) Hv ltac:(lia)) as Hdi.
  destruct (LayerNorm_init_ok (nth (Z.to_nat i) dims 0) (1 # 1000000)
              (valid_dim_nonneg _ Hdi)) as [m ->].
  cbn [bind].
  replace (Z.of_nat (Z.to_nat i) + 1) with (Z.of_nat (S (Z.to_nat i))) by lia.
  rewrite (py_index_in_range dims (S (Z.to_nat i)) 0) by lia. cbn [bind].
  pose proof (nth_valid_dim dims (S (Z.to_nat i)) Hv ltac:(lia)) as Hdi1.
  rewrite Conv2d_init_ok; cbn [fst snd pair_of]; try lia;
    try apply Z.mod_1_r;
    try (apply valid_dim_nonneg; assumption).
  eexists; reflexivity.
Qed.

Lemma build_stages_first_err {B : Type} (ctor : block_ctor B)
    (dims depths : list Z) (dp_rates : list Q) (lsiv : Q) (cfs : list ConvFn)
    (i : Z) (rest : list Z) (cur d dim : Z) (r : Q) (cf : ConvFn) (e : exn) :
  py_index depths i = Ok d -> 0 < d ->
  py_index dims i = Ok dim ->
  py_index dp_rates (cur + 0) = Ok r ->
  py_index cfs i = Ok cf ->
  ctor dim [3; 5; 7] r lsiv cf = Err e ->
  build_stages ctor dims depths dp_rates lsiv cfs (i :: rest) cur = Err e.
Proof.
  intros Hd Hpos Hdim Hr Hcf He. cbn [build_stages].
  rewrite Hd. cbn [bind].
  destruct (range_pos d Hpos) as [l ->]. cbn [mapM].
  rewrite Hdim, Hr, Hcf. cbn [bind]. rewrite He. reflexivity.
Qed.

Lemma MSCABlock_init_357_msg (dim : Z) (dp lsiv : Q) (cf : ConvFn) :
  valid_dim dim -> valid_conv_fn cf ->
  MSCABlock_init dim [3; 5; 7] dp lsiv cf = Err (AssertionError kernel_sizes_msg).
Proof.
  intros Hd Hcf. unfold MSCABlock_init.
  destruct (conv_branches_ok dim cf Hd Hcf) as [bs ->]. reflexivity.
Qed.

(** On valid widths the stage loop stops at the first block it builds, with
    the assertion on the kernel sizes. *)
Lemma build_stages_assertion (dims depths : list Z) (l : list Q) (lsiv : Q)
    (cfs : list ConvFn) :
  List.length dims = List.length depths ->
  List.length cfs = List.length depths ->
  Forall valid_dim dims -> Forall valid_conv_fn cfs ->
  Forall (fun d => 0 <= d) depths ->
  forall m start from,
    (start + m <= List.length depths)%nat ->
    (from + total_blocks (firstn m (skipn start depths)) <= List.length l)%nat ->
    Exists (fun d => 0 < d) (firstn m (skipn start depths)) ->
    build_stages MSCABlock_init dims depths l lsiv cfs
                 (map Z.of_nat (seq start m)) (Z.of_nat from)
    = Err (AssertionError kernel_sizes_msg).
Proof.
  intros Hdims Hcfs Hvd Hvc Hpos.
  induction m as [|m IH]; intros start from Hm Hl Hex;
    [cbn [firstn] in Hex; inversion Hex|].
  destruct (nth_error depths start) as [d|] eqn:Hd;
    [|apply nth_error_None in Hd; lia].
  assert (Hd0 : 0 <= d).
  { apply nth_error_In in Hd. rewrite Forall_forall in Hpos. auto. }
  rewrite (skipn_nth_cons _ _ _ Hd) in *.
  cbn [firstn] in *.
  change (total_blocks (d :: firstn m (skipn (S start) depths)))
    with (Z.to_nat d + total_blocks (firstn m (skipn (S start) depths)))%nat
    in Hl.
  cbn [seq map].
  destruct (Z.eq_dec d 0) as [->|Hne].
  - cbn [build_stages]. rewrite (py_index_nth _ _ _ Hd). cbn [bind].
    change (range 0) with (@nil Z). cbn [mapM bind].
    rewrite Z.add_0_r.
    change (Z.to_nat 0) with O in Hl.
    rewrite IH; [reflexivity | lia | lia |].
    inversion Hex as [? ? H0 | ? ? H0]; subst; [lia | exact H0].
  - apply (build_stages_first_err _ _ _ _ _ _ _ _ _ d
             (nth start dims 0) (nth from l 0%Q) (nth start cfs nn_Conv2d)).
    + apply py_index_nth; exact Hd.
    + lia.
    + apply py_index_in_range; lia.
    + rewrite Z.add_0_r. apply py_index_in_range. lia.
    + apply py_index_in_range; lia.
    + apply MSCABlock_init_357_msg.
      * apply nth_valid_dim; [exact Hvd | lia].
      * rewrite Forall_forall in Hvc. apply Hvc. apply nth_In. lia.
Qed.

Lemma broadcast_conv_fns_valid (conv_fns : scalar_or_seq ConvFn) (n : nat) :
  valid_conv_fns conv_fns n ->
  List.length (broadcast_to_stages conv_fns (Z.of_nat n)) = n
  /\ Forall valid_conv_fn (broadcast_to_stages conv_fns (Z.of_nat n)).
Proof.
  destruct conv_fns as [cf|l]; simpl.
  - intros Hcf. rewrite Nat2Z.id, repeat_length. split; [reflexivity|].
    apply Forall_forall. intros x Hx. apply repeat_spec in Hx. subst. exact Hcf.
  - tauto.
Qed.

(** C1. As soon as some stage has a block the constructor of the backbone
    raises, whatever the configuration: it builds every block with the kernel
    sizes [3, 5, 7], which the block constructor rejects.  On a valid
    configuration with as many widths as depths, the exception is the
    failed assertion on the kernel sizes. *)
Theorem ConvNeXt_init_raises (in_chans num_classes : Z) (depths dims : list Z)
    (drop_path_rate layer_scale_init_value head_init_scale : Q)
    (kernel_sizes : scalar_or_seq Z) (conv_fns : scalar_or_seq ConvFn) :
  Exists (fun d => 0 < d) depths ->
  (exists e,
      ConvNeXt_init in_chans num_classes depths dims drop_path_rate
                    layer_scale_init_value head_init_scale kernel_sizes conv_fns
      = Err e)
  /\ (valid_config in_chans depths dims conv_fns ->
      ConvNeXt_init in_chans num_classes depths dims drop_path_rate
                    layer_scale_init_value head_init_scale kernel_sizes conv_fns
      = Err (AssertionError kernel_sizes_msg)).
Proof.
  intros Hex. split.
  - apply not_ok_err. unfold ConvNeXt_init. cbv zeta.
    apply bind_not_ok; intros d0 _.
    apply bind_not_ok; intros stem_conv _.
    apply bind_not_ok; intros d0' _.
    apply bind_not_ok; intros stem_norm _.
    apply bind_not_ok; intros downs _.
    apply bind_not_ok; intros dp_rates _.
    apply bind_not_ok_l.
    apply build_stages_not_ok.
    + intros; apply MSCABlock_init_357.
    + apply positive_depth_index; assumption.
  - intros (Hin & Hlen & Hvd & Hpos & Hcf).
    assert (Hne : (0 < List.length depths)%nat).
    { destruct depths; [inversion Hex | simpl; lia]. }
    unfold ConvNeXt_init. cbv zeta.
    change 0 with (Z.of_nat 0) at 1.
    rewrite (py_index_in_range dims 0 0) by lia. cbn [bind].
    pose proof (nth_valid_dim dims 0 Hvd ltac:(lia)) as Hd0.
    rewrite Conv2d_init_ok; cbn [fst snd pair_of]; try lia;
      try apply Z.mod_1_r; try (apply valid_dim_nonneg; exact Hd0).
    cbn [bind].
    change 0 with (Z.of_nat 0) at 1.
    rewrite (py_index_in_range dims 0 0) by lia. cbn [bind].
    destruct (LayerNorm_init_ok (nth 0 dims 0) (1 # 1000000)
                (valid_dim_nonneg _ Hd0)) as [sn ->].
    cbn [bind].
    destruct (downsample_layers_ok dims (len depths - 1) Hvd) as [downs ->];
      [unfold len; lia|].
    cbn [bind].
    pose proof (sumZ_total depths Hpos) as Hsum.
    destruct (torch_linspace_points drop_path_rate (sumZ depths) ltac:(lia))
      as (l & -> & Hl & _).
    cbn [bind].
    destruct (broadcast_conv_fns_valid conv_fns (List.length depths) Hcf)
      as [Hcl Hcv].
    unfold range, len. rewrite Nat2Z.id.
    pose proof (build_stages_assertion dims depths l layer_scale_init_value _
                  Hlen Hcl Hvd Hcv Hpos (List.length depths) O O) as Hb.
    cbn [skipn] in Hb. rewrite firstn_all in Hb.
    change (Z.of_nat 0) with 0 in Hb.
    rewrite Hb; [reflexivity | lia | | exact Hex].
    rewrite Hl, Hsum, Nat2Z.id. lia.
Qed.

(** ** Stochastic depth *)

Lemma DropPathModule_inference (dp : DropPathModule) (rnd : list Z -> F)
    (y : @Tensor F) :
  DropPathModule_forward dp false rnd y = Ok y.
Proof.
  destruct dp as [p|]; simpl; [|reflexivity].
  unfold drop_path_fn. rewrite orb_true_r. reflexivity.
Qed.

(** In training mode the draw does enter the result: the branch is multiplied
    by the draw divided by the keep probability. *)
Lemma DropPath_training (p : Q) (rnd : list Z -> F) (y : @Tensor F) :
  (0 < p)%Q -> (p < 1)%Q ->
  DropPathModule_forward (DropPath p) true rnd y
  = tmul y (tmap (fun v => fdiv v (of_float (1 - p)))
                 (mkTensor (get (shape y) 0 :: repeat 1 (rank y - 1)%nat) rnd)).
Proof.
  intros H0 H1. simpl. unfold drop_path_fn.
  assert (Qeq_bool p 0 = false) as ->.
  { destruct (Qeq_bool p 0) eqn:E; [|reflexivity].
    apply Qeq_bool_eq in E. rewrite E in H0. discriminate. }
  assert (Qgtb0 (1 - p) = true) as ->.
  { unfold Qgtb0. apply Z.ltb_lt. destruct p as [a b].
    unfold Qlt, Qminus, Qplus, Qopp in *. cbn [Qnum Qden] in *. lia. }
  reflexivity.
Qed.

(** C8. In inference mode the stochastic-depth module returns its argument
    unchanged, whatever its rate and whatever the random draw, so the output
    of either block does not depend on the draw: two runs on the same input
    with the same parameters give the same result. *)
Theorem inference_deterministic :
  (forall (dp : DropPathModule) (rnd : list Z -> F) (y : @Tensor F),
      DropPathModule_forward dp false rnd y = Ok y)
  /\ (forall (m : Block) (x : @Tensor F) (rnd1 rnd2 : list Z -> F),
        Block_forward m false rnd1 x = Block_forward m false rnd2 x)
  /\ (forall (m : MSCABlock) (x : @Tensor F) (rnd1 rnd2 : list Z -> F),
        MSCABlock_forward m false rnd1 x = MSCABlock_forward m false rnd2 x).
Proof.
  split; [exact DropPathModule_inference|]. split.
  - intros m x rnd1 rnd2. unfold Block_forward. cbv zeta.
    repeat (apply bind_ext; intros).
    rewrite !DropPathModule_inference. reflexivity.
  - intros m x rnd1 rnd2. unfold MSCABlock_forward. cbv zeta.
    repeat (apply bind_ext; intros).
    rewrite !DropPathModule_inference. reflexivity.
Qed.

(** ** Layer scale *)

Lemma Qgtb0_spec (q : Q) : Qgtb0 q = true <-> (0 < q)%Q.
Proof.
  unfold Qgtb0, Qlt. simpl. rewrite Z.ltb_lt. lia.
Qed.

Lemma gamma_init (lsiv : Q) (dim : Z) (g : option (@Tensor F)) :
  (if Qgtb0 lsiv
   then g <- scaled_ones lsiv dim ;; Ok (Some g)
   else Ok None) = Ok g ->
  g = if Qgtb0 lsiv
      then Some (mkTensor [dim] (fun _ => fmul (of_float lsiv) fone))
      else None.
Proof.
  destruct (Qgtb0 lsiv); [|intros H; inversion H; reflexivity].
  unfold scaled_ones, torch_ones, torch_full.
  destruct (existsb _ _); [discriminate|].
  intros H; inversion H; reflexivity.
Qed.

Lemma Block_init_gamma (dim ks : Z) (dp lsiv : Q) (cf : ConvFn) (b : Block) :
  Block_init dim ks dp lsiv cf = Ok b ->
  blk_gamma b = if Qgtb0 lsiv
                then Some (mkTensor [dim] (fun _ => fmul (of_float lsiv) fone))
                else None.
Proof.
  unfold Block_init. intros H.
  do 4 (apply bind_Ok_inv in H; destruct H as (? & ? & H)).
  apply bind_Ok_inv in H; destruct H as (g & Hg & H).
  inversion H; subst; cbn [blk_gamma]. apply gamma_init; assumption.
Qed.

Lemma MSCABlock_init_gamma (dim : Z) (ks : list Z) (dp lsiv : Q) (cf : ConvFn)
    (b : MSCABlock) :
  MSCABlock_init dim ks dp lsiv cf = Ok b ->
  gamma b = if Qgtb0 lsiv
            then Some (mkTensor [dim] (fun _ => fmul (of_float lsiv) fone))
            else None.
Proof.
  unfold MSCABlock_init. intros H.
  do 9 (apply bind_Ok_inv in H; destruct H as (? & ? & H)).
  apply bind_Ok_inv in H; destruct H as (g & Hg & H).
  inversion H; subst; cbn [gamma]. apply gamma_init; assumption.
Qed.

Lemma Block_forward_staged (m : Block) (training : bool) (rnd : list Z -> F)
    (x : @Tensor F) :
  Block_forward m training rnd x
  = (y <- (c <- ConvModule_forward (dwconv m) x ;;
           mlp_branch (blk_norm m) (blk_pwconv1 m) (blk_pwconv2 m) c) ;;
     s <- layer_scale (blk_gamma m) y ;;
     close_residual (blk_drop_path m) training rnd x s).
Proof.
  unfold Block_forward, mlp_branch, close_residual, layer_scale. cbv zeta.
  repeat (rewrite ?bind_assoc; apply bind_ext; intros).
  reflexivity.
Qed.

Lemma MSCABlock_forward_staged (m : MSCABlock) (training : bool)
    (rnd : list Z -> F) (x : @Tensor F) :
  MSCABlock_forward m training rnd x
  = (fused_features <- MSCABlock_fused_features m x ;;
     y <- mlp_branch (norm m) (pwconv1 m) (pwconv2 m) fused_features ;;
     s <- layer_scale (gamma m) y ;;
     close_residual (drop_path m) training rnd fused_features s).
Proof.
  unfold MSCABlock_forward, MSCABlock_fused_features, mlp_branch,
    close_residual, layer_scale. cbv zeta.
  repeat (rewrite ?bind_assoc; apply bind_ext; intros).
  reflexivity.
Qed.

Lemma broadcast_last_axis (n h w c : Z) :
  broadcast_shapes [c] [n; h; w; c] = Ok [n; h; w; c].
Proof. broadcast_cases. Qed.

Lemma Qgtb0_false (q : Q) : Qgtb0 q = false <-> (q <= 0)%Q.
Proof.
  unfold Qgtb0, Qle. simpl. rewrite Z.ltb_ge. lia.
Qed.

Lemma gamma_cases (lsiv : Q) (dim : Z) (g : option (@Tensor F)) :
  g = (if Qgtb0 lsiv
       then Some (mkTensor [dim] (fun _ => fmul (of_float lsiv) fone))
       else None) ->
  ((0 < lsiv)%Q ->
   g = Some (mkTensor [dim] (fun _ => fmul (of_float lsiv) fone)))
  /\ ((lsiv <= 0)%Q -> g = None).
Proof.
  intros ->. destruct (Qgtb0 lsiv) eqn:E; split; intros H; try reflexivity.
  - apply Qgtb0_spec in E. exfalso. exact (Qlt_not_le _ _ E H).
  - apply Qgtb0_spec in H. congruence.
Qed.

(** C9. In both blocks [gamma] exists exactly when [layer_scale_init_value]
    is positive, and is then that value times the all-ones vector of length
    [dim]; the forward pass of either block is its MLP branch, passed through
    the layer scale, closed by the residual sum; and the layer scale
    multiplies channel [k] of the MLP output by [gamma[k]] when [gamma]
    exists and returns the MLP output unchanged when it does not. *)
Theorem layer_scale_gamma :
  (forall dim ks dp lsiv cf (b : Block),
      Block_init dim ks dp lsiv cf = Ok b ->
      ((0 < lsiv)%Q ->
       blk_gamma b = Some (mkTensor [dim] (fun _ => fmul (of_float lsiv) fone)))
      /\ ((lsiv <= 0)%Q -> blk_gamma b = None))
  /\ (forall dim ks dp lsiv cf (b : MSCABlock),
        MSCABlock_init dim ks dp lsiv cf = Ok b ->
        ((0 < lsiv)%Q ->
         gamma b = Some (mkTensor [dim] (fun _ => fmul (of_float lsiv) fone)))
        /\ ((lsiv <= 0)%Q -> gamma b = None))
  /\ (forall (m : Block) training rnd (x : @Tensor F),
        Block_forward m training rnd x
        = (y <- (c <- ConvModule_forward (dwconv m) x ;;
                 mlp_branch (blk_norm m) (blk_pwconv1 m) (blk_pwconv2 m) c) ;;
           s <- layer_scale (blk_gamma m) y ;;
           close_residual (blk_drop_path m) training rnd x s))
  /\ (forall (m : MSCABlock) training rnd (x : @Tensor F),
        MSCABlock_forward m training rnd x
        = (fused_features <- MSCABlock_fused_features m x ;;
           y <- mlp_branch (norm m) (pwconv1 m) (pwconv2 m) fused_features ;;
           s <- layer_scale (gamma m) y ;;
           close_residual (drop_path m) training rnd fused_features s))
  /\ (forall y : @Tensor F, layer_scale None y = Ok y)
  /\ (forall (g y : @Tensor F) n h w c,
        shape g = [c] -> shape y = [n; h; w; c] ->
        exists s,
          layer_scale (Some g) y = Ok s
          /\ shape s = shape y
          /\ forall i j l k,
               0 <= i < n -> 0 <= j < h -> 0 <= l < w -> 0 <= k < c ->
               val s [i; j; l; k] = fmul (val g [k]) (val y [i; j; l; k])).
Proof.
  split.
  { intros dim ks dp lsiv cf b Hb. apply gamma_cases.
    exact (Block_init_gamma _ _ _ _ _ _ Hb). }
  split.
  { intros dim ks dp lsiv cf b Hb. apply gamma_cases.
    exact (MSCABlock_init_gamma _ _ _ _ _ _ Hb). }
  split; [exact Block_forward_staged|].
  split; [exact MSCABlock_forward_staged|].
  split; [reflexivity|].
  intros g y n h w c Hg Hy. unfold layer_scale, tmul, tbinop.
  rewrite Hg, Hy, broadcast_last_axis. cbn [bind].
  eexists; split; [reflexivity|]. split; [reflexivity|].
  intros i j l k Hi Hj Hl Hk. cbn [val]. unfold bidx. simpl.
  rewrite (pick_index n i Hi), (pick_index h j Hj), (pick_index w l Hl),
    !(pick_index c k Hk).
  reflexivity.
Qed.

(** ** The factories of the ImageNet-1k-only configurations *)



(** * Further properties of the module *)

(** ** Shapes through the layers *)

Lemma Conv2d_forward_ok (m : Conv2d) (x : @Tensor F) (n h w : Z) :
  shape x = [n; in_channels m; h; w] ->
  0 < fst (stride m) -> 0 < snd (stride m) ->
  fst (dilation m) * (fst (kernel_size m) - 1) + 1 <= h + 2 * fst (padding m) ->
  snd (dilation m) * (snd (kernel_size m) - 1) + 1 <= w + 2 * snd (padding m) ->
  Conv2d_forward m x
  = Ok (mkTensor
          [n; out_channels m;
           conv_out_size h (fst (kernel_size m)) (fst (stride m))
                         (fst (padding m)) (fst (dilation m));
           conv_out_size w (snd (kernel_size m)) (snd (stride m))
                         (snd (padding m)) (snd (dilation m))]
          (conv_val m x)).
Proof.
  intros Hx Hs1 Hs2 Hh Hw. unfold Conv2d_forward. rewrite Hx.
  rewrite Z.eqb_refl. cbn [negb].
  destruct (fst (stride m) <=? 0) eqn:E1; [apply Z.leb_le in E1; lia|].
  destruct (snd (stride m) <=? 0) eqn:E2; [apply Z.leb_le in E2; lia|].
  cbn [orb].
  destruct (h + 2 * fst (padding m)
              <? fst (dilation m) * (fst (kernel_size m) - 1) + 1) eqn:E3;
    [apply Z.ltb_lt in E3; lia|].
  destruct (w + 2 * snd (padding m)
              <? snd (dilation m) * (snd (kernel_size m) - 1) + 1) eqn:E4;
    [apply Z.ltb_lt in E4; lia|].
  reflexivity.
Qed.

Lemma Conv2d_forward_small (m : Conv2d) (x : @Tensor F) (n h w : Z) :
  shape x = [n; in_channels m; h; w] ->
  0 < fst (stride m) -> 0 < snd (stride m) ->
  h + 2 * fst (padding m) < fst (dilation m) * (fst (kernel_size m) - 1) + 1
  \/ w + 2 * snd (padding m) < snd (dilation m) * (snd (kernel_size m) - 1) + 1 ->
  Conv2d_forward m x
  = Err (RuntimeError "Kernel size can't be greater than actual input size").
Proof.
  intros Hx Hs1 Hs2 Hsmall. unfold Conv2d_forward. rewrite Hx.
  rewrite Z.eqb_refl. cbn [negb].
  destruct (fst (stride m) <=? 0) eqn:E1; [apply Z.leb_le in E1; lia|].
  destruct (snd (stride m) <=? 0) eqn:E2; [apply Z.leb_le in E2; lia|].
  cbn [orb].
  destruct (h + 2 * fst (padding m)
              <? fst (dilation m) * (fst (kernel_size m) - 1) + 1) eqn:E3;
    [reflexivity|].
  destruct (w + 2 * snd (padding m)
              <? snd (dilation m) * (snd (kernel_size m) - 1) + 1) eqn:E4;
    [reflexivity|].
  apply Z.ltb_ge in E3, E4. lia.
Qed.




Lemma F_layer_norm_last_axis (x wt bs : @Tensor F) (eps : Q) (lead : list Z)
    (c : Z) :
  shape x = lead ++ [c] ->
  exists y, F_layer_norm x [c] wt bs eps = Ok y /\ shape y = shape x.
Proof.
  intros Hx. unfold F_layer_norm, rank. rewrite Hx.
  rewrite length_app. cbn [Datatypes.length].
  replace (Datatypes.length lead + 1 <? 1)%nat with false
    by (symmetry; apply Nat.ltb_ge; lia).
  replace (Datatypes.length lead + 1 - 1)%nat with (Datatypes.length lead)
    by lia.
  rewrite skipn_app, skipn_all, Nat.sub_diag. cbn [skipn app].
  rewrite shape_eqb_refl. cbn [negb orb].
  eexists; split; reflexivity.
Qed.

Lemma Linear_forward_last_axis (m : Linear) (x : @Tensor F) (lead : list Z) :
  shape x = lead ++ [in_features m] ->
  exists y, Linear_forward m x = Ok y /\ shape y = lead ++ [out_features m].
Proof.
  intros Hx. unfold Linear_forward. rewrite Hx, rev_app_distr. cbn [rev app].
  rewrite Z.eqb_refl. cbn [negb]. rewrite rev_involutive.
  eexists; split; reflexivity.
Qed.








(** ** The plain block *)

Lemma LayerNorm_init_fields (n : Z) (eps : Q) (fmt : string) (m : LayerNorm) :
  LayerNorm_init n eps fmt = Ok m ->
  0 <= n
  /\ (fmt = "channels_last" \/ fmt = "channels_first")%string
  /\ m = mkLayerNorm (mkTensor [n] (fun _ => fone))
                     (mkTensor [n] (fun _ => fzero)) eps fmt [n].
Proof.
  unfold LayerNorm_init, torch_ones, torch_zeros, torch_full.
  cbn [existsb]. rewrite orb_false_r.
  destruct (n <? 0) eqn:E; [discriminate|]. apply Z.ltb_ge in E.
  cbn [bind].
  destruct (String.eqb fmt "channels_last") eqn:E1.
  - apply String.eqb_eq in E1. cbn [orb negb].
    intros H; inversion H. auto.
  - destruct (String.eqb fmt "channels_first") eqn:E2; cbn [orb negb];
      [|discriminate].
    apply String.eqb_eq in E2. intros H; inversion H. auto.
Qed.

Lemma Linear_init_fields (i o : Z) (m : Linear) :
  Linear_init i o = Ok m -> in_features m = i /\ out_features m = o.
Proof.
  unfold Linear_init. intros H. inv_bind H. inv_bind H.
  inversion H; subst; auto.
Qed.









(** ** The two formats of [LayerNorm] *)

(** The channel-first branch up to its two per-channel operations: the
    normalised tensor has the input's shape, and the result is decided by
    how the weight and the bias broadcast against it. *)
Lemma LayerNorm_channels_first_steps (m : LayerNorm) (x : @Tensor F)
    (n c c' h w : Z) :
  data_format m = "channels_first"%string ->
  shape (ln_weight m) = [c] -> shape (ln_bias m) = [c] ->
  shape x = [n; c'; h; w] ->
  exists xhat,
    shape xhat = [n; c'; h; w]
    /\ LayerNorm_forward m x
       = (y <- tmul (index_None_None (ln_weight m)) xhat ;;
          tadd y (index_None_None (ln_bias m))).
Proof.
  intros Hfmt Hw Hb Hx. unfold LayerNorm_forward. rewrite Hfmt.
  change (String.eqb "channels_first" "channels_last") with false.
  change (String.eqb "channels_first" "channels_first") with true.
  cbv iota.
  unfold mean_keepdim, tsub, tdiv, tbinop, rank, tpow2, tmap, tadd_scalar.
  cbn [shape]. rewrite Hx.
  repeat first
    [ rewrite broadcast_keepdim
    | progress cbn [Datatypes.length Nat.leb set app bind shape] ].
  eexists; split; [|reflexivity]. reflexivity.
Qed.

Lemma broadcast_weight (n c c' h w : Z) :
  broadcast_shapes [c; 1; 1] [n; c'; h; w]
  = if c =? c' then Ok [n; c; h; w]
    else if c =? 1 then Ok [n; c'; h; w]
    else if c' =? 1 then Ok [n; c; h; w]
    else Err (RuntimeError "The size of tensor a must match the size of tensor b").
Proof.
  unfold broadcast_shapes. cbn [rev app broadcast_rev bind].
  destruct (c =? c'); [|destruct (c =? 1); [|destruct (c' =? 1)]];
    cbn [bind]; try reflexivity;
    destruct (Z.eqb_spec 1 h) as [ <- | _ ]; cbn [bind];
    destruct (Z.eqb_spec 1 w) as [ <- | _ ]; reflexivity.
Qed.

Lemma broadcast_bias (n c d h w : Z) :
  d = c \/ c = 1 ->
  broadcast_shapes [n; d; h; w] [c; 1; 1] = Ok [n; d; h; w].
Proof.
  intros [Hd|Hd]; subst; broadcast_cases.
Qed.

(** X3. The constructor of [LayerNorm] accepts exactly the two data formats
    (any other string raises NotImplementedError, once the size is not
    negative), and starts from the weight 1 and the bias 0; and a layer it
    returned always takes one of the two branches of [forward]: on a
    channel-last input ending in C entries, and on a channel-first input of
    shape [N, C, H, W], [forward] returns a tensor of the input's shape. *)
Theorem LayerNorm_formats (nshape : Z) (eps : Q) (fmt : string) :
  0 <= nshape ->
  (fmt <> "channels_last"%string -> fmt <> "channels_first"%string ->
   LayerNorm_init nshape eps fmt = Err NotImplementedError)
  /\ (fmt = "channels_last"%string \/ fmt = "channels_first"%string ->
      LayerNorm_init nshape eps fmt
      = Ok (mkLayerNorm (mkTensor [nshape] (fun _ => fone))
                        (mkTensor [nshape] (fun _ => fzero))
                        eps fmt [nshape]))
  /\ (forall m (x : @Tensor F) lead,
        LayerNorm_init nshape eps "channels_last" = Ok m ->
        shape x = lead ++ [nshape] ->
        exists y, LayerNorm_forward m x = Ok y /\ shape y = shape x)
  /\ (forall m (x : @Tensor F) n h w,
        LayerNorm_init nshape eps "channels_first" = Ok m ->
        shape x = [n; nshape; h; w] ->
        exists y, LayerNorm_forward m x = Ok y /\ shape y = shape x).
Proof.
  intros Hn.
  assert (Hinit : forall f,
             LayerNorm_init nshape eps f
             = if negb (String.eqb f "channels_last"
                        || String.eqb f "channels_first")
               then Err NotImplementedError
               else Ok (mkLayerNorm (mkTensor [nshape] (fun _ => fone))
                          (mkTensor [nshape] (fun _ => fzero))
                          eps f [nshape])).
  { intros f. unfold LayerNorm_init, torch_ones, torch_zeros.
    rewrite !torch_full_ok by (repeat constructor; lia). reflexivity. }
  split; [|split; [|split]].
  - intros H1 H2. rewrite Hinit.
    apply String.eqb_neq in H1, H2. rewrite H1, H2. reflexivity.
  - intros [->| ->]; rewrite Hinit; reflexivity.
  - intros m x lead Hm Hx. rewrite Hinit in Hm. cbn in Hm.
    inversion Hm; subst m; clear Hm.
    unfold LayerNorm_forward. cbn [data_format normalized_shape ln_weight
                                     ln_bias ln_eps].
    change (String.eqb "channels_last" "channels_last") with true. cbv iota.
    apply (F_layer_norm_last_axis x _ _ eps lead nshape Hx).
  - intros m x n h w Hm Hx. rewrite Hinit in Hm. cbn in Hm.
    inversion Hm; subst m; clear Hm.
    destruct (LayerNorm_channels_first_steps
                (mkLayerNorm (mkTensor [nshape] (fun _ => fone))
                   (mkTensor [nshape] (fun _ => fzero))
                   eps "channels_first" [nshape])
                x n nshape nshape h w
                eq_refl eq_refl eq_refl Hx) as (xhat & Hs & ->).
    unfold tmul, tadd, tbinop, index_None_None. cbn [shape ln_weight ln_bias app].
    rewrite Hs, broadcast_weight, Z.eqb_refl. cbn [bind shape].
    rewrite broadcast_bias by (left; reflexivity). cbn [bind].
    eexists; split; [reflexivity|]. cbn [shape]. rewrite Hx. reflexivity.
Qed.

(** X4. The channel-first branch does not check the channel count of its
    input against the layer's: the weight and the bias are broadcast.  A
    one-channel input to a layer over C channels comes back with C channels,
    a layer over one channel accepts any number of channels, and any other
    mismatch raises at the multiplication by the weight. *)
Theorem LayerNorm_channels_first_mismatch (m : LayerNorm) (x : @Tensor F)
    (n c c' h w : Z) :
  data_format m = "channels_first"%string ->
  shape (ln_weight m) = [c] -> shape (ln_bias m) = [c] ->
  shape x = [n; c'; h; w] ->
  (c' = 1 ->
   exists y, LayerNorm_forward m x = Ok y /\ shape y = [n; c; h; w])
  /\ (c = 1 ->
      exists y, LayerNorm_forward m x = Ok y /\ shape y = [n; c'; h; w])
  /\ (c' <> c -> c <> 1 -> c' <> 1 ->
      LayerNorm_forward m x
      = Err (RuntimeError "The size of tensor a must match the size of tensor b")).
Proof.
  intros Hfmt Hw Hb Hx.
  destruct (LayerNorm_channels_first_steps m x n c c' h w Hfmt Hw Hb Hx)
    as (xhat & Hs & ->).
  unfold tmul, tadd, tbinop, index_None_None. cbn [shape].
  rewrite Hw, Hb, Hs. cbn [app]. rewrite broadcast_weight.
  split; [|split].
  - intros ->. destruct (Z.eqb_spec c 1) as [->|Hc];
      rewrite ?Z.eqb_refl; cbn [bind shape];
      rewrite broadcast_bias by (left; reflexivity); cbn [bind];
      eexists; split; reflexivity.
  - intros ->. destruct (Z.eqb_spec 1 c') as [Heq|Hc]; [subst c'|];
      rewrite ?Z.eqb_refl; cbn [bind shape];
      rewrite broadcast_bias by (right; reflexivity); cbn [bind];
      eexists; split; reflexivity.
  - intros H1 H2 H3.
    destruct (Z.eqb_spec c c'); [congruence|].
    destruct (Z.eqb_spec c 1); [congruence|].
    destruct (Z.eqb_spec c' 1); [congruence|].
    reflexivity.
Qed.

(** ** Partial convolution: construction and the split *)



(** ** The backbone: fewer widths than depths *)

Lemma mapM_err_at {A B : Type} (f : A -> result B) (l1 l2 : list A) (a : A)
    (e : exn) :
  (forall x, In x l1 -> exists b, f x = Ok b) ->
  f a = Err e ->
  mapM f (l1 ++ a :: l2) = Err e.
Proof.
  intros Hok Ha. induction l1 as [|x l1 IH]; cbn [app mapM].
  - rewrite Ha. reflexivity.
  - destruct (Hok x (or_introl eq_refl)) as [b ->]. cbn [bind].
    rewrite IH by (intros y Hy; apply Hok; right; exact Hy). reflexivity.
Qed.

Lemma range_split (n j : Z) :
  0 <= j < n -> exists rest, range n = range j ++ j :: rest.
Proof.
  intros Hj. unfold range.
  replace (Z.to_nat n) with (Z.to_nat j + S (Z.to_nat n - Z.to_nat j - 1))%nat
    by lia.
  rewrite seq_app, map_app. cbn [seq map Nat.add].
  rewrite Z2Nat.id by lia. eexists; reflexivity.
Qed.

Lemma py_index_past_end {A : Type} (l : list A) (i : Z) :
  len l <= i -> py_index l i = Err (IndexError "list index out of range").
Proof.
  intros Hi. unfold py_index. pose proof (Nat2Z.is_nonneg (List.length l)).
  unfold len in *.
  destruct (i <? 0) eqn:E; [apply Z.ltb_lt in E; lia|]. cbv zeta.
  rewrite E. cbn [orb].
  destruct (Z.of_nat (List.length l) <=? i) eqn:E2;
    [reflexivity | apply Z.leb_gt in E2; lia].
Qed.

Lemma nth_nonneg (dims : list Z) (n : nat) :
  Forall (fun d => 0 <= d) dims -> (n < List.length dims)%nat ->
  0 <= nth n dims 0.
Proof.
  intros H Hn. rewrite Forall_forall in H. apply H. apply nth_In. exact Hn.
Qed.

(** X7. When there are fewer widths than depths the constructor raises
    IndexError while it builds the stem or the downsampling layers, before
    any block is built and whatever the depths are. *)
Theorem ConvNeXt_init_short_dims (in_chans num_classes : Z)
    (depths dims : list Z)
    (drop_path_rate layer_scale_init_value head_init_scale : Q)
    (kernel_sizes : scalar_or_seq Z) (conv_fns : scalar_or_seq ConvFn) :
  0 <= in_chans -> Forall (fun d => 0 <= d) dims ->
  (List.length dims < List.length depths)%nat ->
  ConvNeXt_init in_chans num_classes depths dims drop_path_rate
                layer_scale_init_value head_init_scale kernel_sizes conv_fns
  = Err (IndexError "list index out of range").
Proof.
  intros Hin Hpos Hlen. unfold ConvNeXt_init. cbv zeta.
  destruct dims as [|d0 dims']; [reflexivity|].
  assert (Hl1 : (1 <= List.length (d0 :: dims'))%nat)
    by (cbn [List.length]; lia).
  set (dims := d0 :: dims') in *.
  change 0 with (Z.of_nat 0) at 1.
  rewrite (py_index_in_range dims 0 0) by lia.
  cbn [bind].
  pose proof (nth_nonneg dims 0 Hpos ltac:(lia)) as Hd0.
  rewrite Conv2d_init_ok; cbn [fst snd pair_of]; try lia;
    try apply Z.mod_1_r.
  cbn [bind].
  change 0 with (Z.of_nat 0) at 1.
  rewrite (py_index_in_range dims 0 0) by lia.
  cbn [bind].
  destruct (LayerNorm_init_ok (nth 0 dims 0) (1 # 1000000) Hd0) as [sn ->].
  cbn [bind].
  destruct (range_split (len depths - 1) (len dims - 1)) as [rest ->];
    [unfold len; lia|].
  rewrite (mapM_err_at _ _ _ _ (IndexError "list index out of range"));
    [reflexivity | |].
  - intros i Hi. apply in_range in Hi. unfold len in Hi.
    replace i with (Z.of_nat (Z.to_nat i)) by lia.
    rewrite (py_index_in_range dims (Z.to_nat i) 0) by lia. cbn [bind].
    pose proof (nth_nonneg dims (Z.to_nat i) Hpos ltac:(lia)) as Hdi.
    destruct (LayerNorm_init_ok (nth (Z.to_nat i) dims 0) (1 # 1000000) Hdi)
      as [m ->].
    cbn [bind].
    replace (Z.of_nat (Z.to_nat i) + 1) with (Z.of_nat (S (Z.to_nat i))) by lia.
    rewrite (py_index_in_range dims (S (Z.to_nat i)) 0) by lia. cbn [bind].
    pose proof (nth_nonneg dims (S (Z.to_nat i)) Hpos ltac:(lia)) as Hdi1.
    rewrite Conv2d_init_ok; cbn [fst snd pair_of]; try lia;
      try apply Z.mod_1_r.
    eexists; reflexivity.
  - unfold len.
    replace (Z.of_nat (List.length dims) - 1)
      with (Z.of_nat (List.length dims - 1))
      by lia.
    assert (Hlast : (List.length dims - 1 < List.length dims)%nat) by lia.
    rewrite (py_index_in_range dims (List.length dims - 1) 0) by exact Hlast.
    cbn [bind].
    pose proof (nth_nonneg dims _ Hpos Hlast) as Hdl.
    destruct (LayerNorm_init_ok _ (1 # 1000000) Hdl) as [m ->].
    cbn [bind].
    rewrite (py_index_past_end dims) by (unfold len; lia).
    reflexivity.
Qed.

(** ** The factories *)




(** ** Attention blocks whose width is not a multiple of 4 *)








(** ** The forward pass of the backbone *)

Lemma LayerNorm_channels_first_same (m : LayerNorm) (x : @Tensor F)
    (n c h w : Z) :
  data_format m = "channels_first"%string ->
  shape (ln_weight m) = [c] -> shape (ln_bias m) = [c] ->
  shape x = [n; c; h; w] ->
  exists y, LayerNorm_forward m x = Ok y /\ shape y = [n; c; h; w].
Proof.
  intros Hfmt Hw Hb Hx.
  destruct (LayerNorm_channels_first_steps m x n c c h w Hfmt Hw Hb Hx)
    as (xhat & Hs & ->).
  unfold tmul, tadd, tbinop, index_None_None. cbn [shape].
  rewrite Hw, Hb, Hs. cbn [app].
  rewrite broadcast_weight, Z.eqb_refl. cbn [bind shape].
  rewrite broadcast_bias by (left; reflexivity). cbn [bind].
  eexists; split; reflexivity.
Qed.

(** A convolution with a square kernel of side [k], stride [k] and no
    padding: it runs exactly when a whole patch fits. *)
Lemma patch_conv_cases (k cin cout : Z) (c : Conv2d) (x : @Tensor F)
    (n h w : Z) :
  1 <= k ->
  Conv2d_init cin cout (pair_of k) (pair_of k) (0, 0) (1, 1) 1 true = Ok c ->
  shape x = [n; cin; h; w] ->
  (k <= h -> k <= w ->
   exists y, Conv2d_forward c x = Ok y
             /\ shape y = [n; cout; conv_out_size h k k 0 1;
                           conv_out_size w k k 0 1])
  /\ (h < k \/ w < k ->
      Conv2d_forward c x
      = Err (RuntimeError "Kernel size can't be greater than actual input size")).
Proof.
  intros Hk Hc Hx.
  destruct (Conv2d_init_in _ _ _ _ _ _ _ _ _ Hc)
    as (Hi & Ho & Hks & Hst & Hpd & Hdl & _).
  rewrite <- Hi in Hx. split.
  - intros Hh Hw.
    rewrite (Conv2d_forward_ok c x n h w Hx);
      rewrite ?Hks, ?Hst, ?Hpd, ?Hdl; cbn [fst snd pair_of]; try lia.
    eexists; split; [reflexivity|]. cbn [shape]. rewrite Ho. reflexivity.
  - intros Hsmall.
    apply (Conv2d_forward_small c x n h w Hx);
      rewrite ?Hks, ?Hst, ?Hpd, ?Hdl; cbn [fst snd pair_of]; lia.
Qed.

Lemma LayerNorm_init_channels_first (d : Z) (eps : Q) (nm : LayerNorm)
    (x : @Tensor F) (n h w : Z) :
  LayerNorm_init d eps "channels_first" = Ok nm ->
  shape x = [n; d; h; w] ->
  exists y, LayerNorm_forward nm x = Ok y /\ shape y = [n; d; h; w].
Proof.
  intros Hn Hx. apply LayerNorm_init_fields in Hn.
  destruct Hn as (_ & _ & ->).
  apply (LayerNorm_channels_first_same _ x n d h w); auto.
Qed.

Lemma Stem_forward_cases (cin d : Z) (c : Conv2d) (nm : LayerNorm)
    (x : @Tensor F) (n h w : Z) :
  Conv2d_init cin d (pair_of 4) (pair_of 4) (0, 0) (1, 1) 1 true = Ok c ->
  LayerNorm_init d (1 # 1000000) "channels_first" = Ok nm ->
  shape x = [n; cin; h; w] ->
  (4 <= h -> 4 <= w ->
   exists y, DownsampleLayer_forward (Stem c nm) x = Ok y
             /\ shape y = [n; d; conv_out_size h 4 4 0 1;
                           conv_out_size w 4 4 0 1])
  /\ (h < 4 \/ w < 4 ->
      DownsampleLayer_forward (Stem c nm) x
      = Err (RuntimeError "Kernel size can't be greater than actual input size")).
Proof.
  intros Hc Hn Hx. cbn [DownsampleLayer_forward].
  destruct (patch_conv_cases 4 cin d c x n h w ltac:(lia) Hc Hx) as [Hok Hsm].
  split.
  - intros Hh Hw. destruct (Hok Hh Hw) as (y & -> & Hy). cbn [bind].
    apply (LayerNorm_init_channels_first d _ nm y _ _ _ Hn Hy).
  - intros Hs. rewrite (Hsm Hs). reflexivity.
Qed.

Lemma Downsample_forward_cases (d d' : Z) (c : Conv2d) (nm : LayerNorm)
    (x : @Tensor F) (n h w : Z) :
  LayerNorm_init d (1 # 1000000) "channels_first" = Ok nm ->
  Conv2d_init d d' (pair_of 2) (pair_of 2) (0, 0) (1, 1) 1 true = Ok c ->
  shape x = [n; d; h; w] ->
  (2 <= h -> 2 <= w ->
   exists y, DownsampleLayer_forward (Downsample nm c) x = Ok y
             /\ shape y = [n; d'; conv_out_size h 2 2 0 1;
                           conv_out_size w 2 2 0 1])
  /\ (h < 2 \/ w < 2 ->
      DownsampleLayer_forward (Downsample nm c) x
      = Err (RuntimeError "Kernel size can't be greater than actual input size")).
Proof.
  intros Hn Hc Hx. cbn [DownsampleLayer_forward].
  destruct (LayerNorm_init_channels_first d _ nm x _ _ _ Hn Hx)
    as (y & -> & Hy).
  cbn [bind].
  exact (patch_conv_cases 2 d d' c y n h w ltac:(lia) Hc Hy).
Qed.

(** The four reductions of one side: by 4 in the stem, then three times
    by 2.  They all apply exactly from 32 on. *)
Lemma downsampling_fits (h : Z) :
  let h1 := conv_out_size h 4 4 0 1 in
  let h2 := conv_out_size h1 2 2 0 1 in
  let h3 := conv_out_size h2 2 2 0 1 in
  (32 <= h -> 4 <= h /\ 2 <= h1 /\ 2 <= h2 /\ 2 <= h3)
  /\ (h < 32 -> h < 4 \/ h1 < 2 \/ h2 < 2 \/ h3 < 2).
Proof.
  unfold conv_out_size. cbv zeta.
  split; intros Hh; Z.to_euclidean_division_equations; lia.
Qed.

(** A stage of a constructed backbone holds no block. *)
Lemma build_stages_ok_empty (dims depths : list Z) (l : list Q) (lsiv : Q)
    (cfs : list ConvFn) (ids : list Z) :
  forall cur st,
    build_stages MSCABlock_init dims depths l lsiv cfs ids cur = Ok st ->
    st = map (fun _ => []) ids.
Proof.
  induction ids as [|i ids IH]; intros cur st H; cbn [build_stages] in H.
  - inversion H. reflexivity.
  - apply bind_Ok_inv in H. destruct H as (d & Hd & H). cbv beta in H.
    apply bind_Ok_inv in H. destruct H as (stage & Hst & H). cbv beta in H.
    apply bind_Ok_inv in H. destruct H as (d' & Hd' & H). cbv beta in H.
    apply bind_Ok_inv in H. destruct H as (rest & Hrest & H). cbv beta in H.
    inversion H; subst st. cbn [map]. f_equal; [|exact (IH _ _ Hrest)].
    destruct (range d) as [|j js]; [inversion Hst; reflexivity|].
    exfalso. cbn [mapM] in Hst.
    apply bind_Ok_inv in Hst. destruct Hst as (b & Hb & _).
    apply bind_Ok_inv in Hb. destruct Hb as (dim & _ & Hb). cbv beta in Hb.
    apply bind_Ok_inv in Hb. destruct Hb as (dp & _ & Hb). cbv beta in Hb.
    apply bind_Ok_inv in Hb. destruct Hb as (cf & _ & Hb). cbv beta in Hb.
    pose proof (MSCABlock_init_357 dim dp lsiv cf) as Hno.
    rewrite Hb in Hno. discriminate.
Qed.

Lemma py_index_last {A : Type} (l : list A) (a d : A) :
  py_index (a :: l) (-1) = Ok (last (a :: l) d).
Proof.
  unfold py_index, len. change (-1 <? 0) with true. cbv iota zeta.
  destruct (-1 + Z.of_nat (List.length (a :: l)) <? 0) eqn:E1;
    [apply Z.ltb_lt in E1; cbn [List.length] in E1; lia|].
  destruct (Z.of_nat (List.length (a :: l))
            <=? -1 + Z.of_nat (List.length (a :: l))) eqn:E2;
    [apply Z.leb_le in E2; lia|].
  cbn [orb].
  replace (Z.to_nat (-1 + Z.of_nat (List.length (a :: l))))
    with (List.length l) by (cbn [List.length]; lia).
  clear. revert a. induction l as [|b l IH]; intros a; [reflexivity|].
  cbn [List.length nth_error]. rewrite IH. reflexivity.
Qed.

(** What the constructor returns for four depths: the stem, three
    downsampling layers, four stages without a block, and a final
    normalisation and a head over the last width. *)
Lemma ConvNeXt_init_layers (in_chans num_classes : Z) (depths : list Z)
    (d0 d1 d2 d3 : Z) (extra : list Z) (R lsiv his : Q)
    (ks : scalar_or_seq Z) (cfs : scalar_or_seq ConvFn) (m : ConvNeXt) :
  List.length depths = 4%nat ->
  ConvNeXt_init in_chans num_classes depths (d0 :: d1 :: d2 :: d3 :: extra)
                R lsiv his ks cfs = Ok m ->
  exists c0 n0 c1 n1 c2 n2 c3 fn hd,
    Conv2d_init in_chans d0 (pair_of 4) (pair_of 4) (0, 0) (1, 1) 1 true = Ok c0
    /\ LayerNorm_init d0 (1 # 1000000) "channels_first" = Ok n0
    /\ Conv2d_init d0 d1 (pair_of 2) (pair_of 2) (0, 0) (1, 1) 1 true = Ok c1
    /\ LayerNorm_init d1 (1 # 1000000) "channels_first" = Ok n1
    /\ Conv2d_init d1 d2 (pair_of 2) (pair_of 2) (0, 0) (1, 1) 1 true = Ok c2
    /\ LayerNorm_init d2 (1 # 1000000) "channels_first" = Ok n2
    /\ Conv2d_init d2 d3 (pair_of 2) (pair_of 2) (0, 0) (1, 1) 1 true = Ok c3
    /\ nnLayerNorm_init [last (d3 :: extra) 0] (1 # 1000000) = Ok fn
    /\ Linear_init (last (d3 :: extra) 0) num_classes = Ok hd
    /\ m = mkConvNeXt 4 num_classes
             [Stem c0 n0; Downsample n0 c1; Downsample n1 c2; Downsample n2 c3]
             [[]; []; []; []] fn hd.
Proof.
  intros Hlen H.
  destruct depths as [|a [|b [|c [|d [|]]]]]; try discriminate Hlen.
  unfold ConvNeXt_init in H. cbv zeta in H.
  change (len [a; b; c; d]) with 4 in H.
  change (range (4 - 1)) with [0; 1; 2] in H.
  change (range 4) with [0; 1; 2; 3] in H.
  cbn [mapM] in H.
  change (0 + 1) with 1 in H. change (1 + 1) with 2 in H.
  change (2 + 1) with 3 in H.
  set (dims := d0 :: d1 :: d2 :: d3 :: extra) in *.
  pose proof (py_index_nth dims 0 d0 eq_refl) as I0.
  pose proof (py_index_nth dims 1 d1 eq_refl) as I1.
  pose proof (py_index_nth dims 2 d2 eq_refl) as I2.
  pose proof (py_index_nth dims 3 d3 eq_refl) as I3.
  change (Z.of_nat 0) with 0 in I0. change (Z.of_nat 1) with 1 in I1.
  change (Z.of_nat 2) with 2 in I2. change (Z.of_nat 3) with 3 in I3.
  assert (Il : py_index dims (-1) = Ok (last (d3 :: extra) 0)).
  { unfold dims. rewrite (py_index_last _ _ 0). reflexivity. }
  rewrite ?I0, ?I1, ?I2, ?I3, ?Il in H. cbn [bind] in H.
  destruct (Conv2d_init in_chans d0 _ _ _ _ _ _) as [c0|] eqn:Ec0;
    cbn [bind] in H; [|discriminate H].
  destruct (LayerNorm_init d0 _ _) as [n0|] eqn:En0;
    cbn [bind] in H; [|discriminate H].
  destruct (Conv2d_init d0 d1 _ _ _ _ _ _) as [c1|] eqn:Ec1;
    cbn [bind] in H; [|discriminate H].
  destruct (LayerNorm_init d1 _ _) as [n1|] eqn:En1;
    cbn [bind] in H; [|discriminate H].
  destruct (Conv2d_init d1 d2 _ _ _ _ _ _) as [c2|] eqn:Ec2;
    cbn [bind] in H; [|discriminate H].
  destruct (LayerNorm_init d2 _ _) as [n2|] eqn:En2;
    cbn [bind] in H; [|discriminate H].
  destruct (Conv2d_init d2 d3 _ _ _ _ _ _) as [c3|] eqn:Ec3;
    cbn [bind] in H; [|discriminate H].
  destruct (torch_linspace 0 R _) as [rates|] eqn:Er;
    cbn [bind] in H; [|discriminate H].
  destruct (build_stages _ _ _ _ _ _ _ _) as [st|] eqn:Est;
    cbn [bind] in H; [|discriminate H].
  apply build_stages_ok_empty in Est. cbn [map] in Est. subst st.
  destruct (nnLayerNorm_init _ _) as [fn|] eqn:Efn;
    cbn [bind] in H; [|discriminate H].
  destruct (Linear_init _ _) as [hd|] eqn:Ehd;
    cbn [bind] in H; [|discriminate H].
  inversion H.
  exists c0, n0, c1, n1, c2, n2, c3, fn, hd.
  repeat (split; [assumption || reflexivity|]). reflexivity.
Qed.

(** The four stages of such a backbone, then the pooling: the input must
    leave one output position after the stem and the three reductions. *)
Lemma trunk_forward (in_chans d0 d1 d2 d3 : Z)
    (c0 c1 c2 c3 : Conv2d) (n0 n1 n2 : LayerNorm) (m : ConvNeXt)
    (training : bool) (rnd : Z -> Z -> list Z -> F) (x : @Tensor F)
    (n h w : Z) :
  Conv2d_init in_chans d0 (pair_of 4) (pair_of 4) (0, 0) (1, 1) 1 true = Ok c0 ->
  LayerNorm_init d0 (1 # 1000000) "channels_first" = Ok n0 ->
  Conv2d_init d0 d1 (pair_of 2) (pair_of 2) (0, 0) (1, 1) 1 true = Ok c1 ->
  LayerNorm_init d1 (1 # 1000000) "channels_first" = Ok n1 ->
  Conv2d_init d1 d2 (pair_of 2) (pair_of 2) (0, 0) (1, 1) 1 true = Ok c2 ->
  LayerNorm_init d2 (1 # 1000000) "channels_first" = Ok n2 ->
  Conv2d_init d2 d3 (pair_of 2) (pair_of 2) (0, 0) (1, 1) 1 true = Ok c3 ->
  downsample_layers m
  = [Stem c0 n0; Downsample n0 c1; Downsample n1 c2; Downsample n2 c3] ->
  stages m = [[]; []; []; []] ->
  shape x = [n; in_chans; h; w] ->
  (32 <= h -> 32 <= w ->
   exists p,
     (y <- forward_stages m training rnd [0; 1; 2; 3] x ;; mean_last2 y) = Ok p
     /\ shape p = [n; d3])
  /\ (h < 32 \/ w < 32 ->
      forward_stages m training rnd [0; 1; 2; 3] x
      = Err (RuntimeError "Kernel size can't be greater than actual input size")).
Proof.
  intros Ec0 En0 Ec1 En1 Ec2 En2 Ec3 Hd Hs Hx.
  destruct (downsampling_fits h) as [Hh_ok Hh_sm].
  destruct (downsampling_fits w) as [Hw_ok Hw_sm].
  cbv zeta in Hh_ok, Hh_sm, Hw_ok, Hw_sm.
  set (h1 := conv_out_size h 4 4 0 1) in *.
  set (h2 := conv_out_size h1 2 2 0 1) in *.
  set (h3 := conv_out_size h2 2 2 0 1) in *.
  set (w1 := conv_out_size w 4 4 0 1) in *.
  set (w2 := conv_out_size w1 2 2 0 1) in *.
  set (w3 := conv_out_size w2 2 2 0 1) in *.
  cbn [forward_stages]. rewrite Hd, Hs.
  change (py_index [Stem c0 n0; Downsample n0 c1; Downsample n1 c2;
                    Downsample n2 c3] 0) with (Ok (Stem c0 n0)).
  change (py_index [Stem c0 n0; Downsample n0 c1; Downsample n1 c2;
                    Downsample n2 c3] 1) with (Ok (Downsample n0 c1)).
  change (py_index [Stem c0 n0; Downsample n0 c1; Downsample n1 c2;
                    Downsample n2 c3] 2) with (Ok (Downsample n1 c2)).
  change (py_index [Stem c0 n0; Downsample n0 c1; Downsample n1 c2;
                    Downsample n2 c3] 3) with (Ok (Downsample n2 c3)).
  change (py_index [[]; []; []; []] 0) with (@Ok (list (@MSCABlock F)) []).
  change (py_index [[]; []; []; []] 1) with (@Ok (list (@MSCABlock F)) []).
  change (py_index [[]; []; []; []] 2) with (@Ok (list (@MSCABlock F)) []).
  change (py_index [[]; []; []; []] 3) with (@Ok (list (@MSCABlock F)) []).
  cbn [bind stage_forward].
  destruct (Stem_forward_cases in_chans d0 c0 n0 x n h w Ec0 En0 Hx)
    as [S0 F0].
  split.
  - intros Hh Hw.
    destruct (Hh_ok Hh) as (A0 & A1 & A2 & A3).
    destruct (Hw_ok Hw) as (B0 & B1 & B2 & B3).
    destruct (S0 A0 B0) as (y0 & -> & Hy0). cbn [bind stage_forward].
    destruct (Downsample_forward_cases d0 d1 c1 n0 y0 n h1 w1 En0 Ec1 Hy0)
      as [S1 _].
    destruct (S1 A1 B1) as (y1 & -> & Hy1). cbn [bind stage_forward].
    destruct (Downsample_forward_cases d1 d2 c2 n1 y1 n h2 w2 En1 Ec2 Hy1)
      as [S2 _].
    destruct (S2 A2 B2) as (y2 & -> & Hy2). cbn [bind stage_forward].
    destruct (Downsample_forward_cases d2 d3 c3 n2 y2 n h3 w3 En2 Ec3 Hy2)
      as [S3 _].
    destruct (S3 A3 B3) as (y3 & -> & Hy3). cbn [bind stage_forward].
    unfold mean_last2. rewrite Hy3. cbn [rev app].
    eexists; split; reflexivity.
  - intros Hsmall.
    destruct (Z_lt_le_dec (Z.min h w) 4) as [L0|L0];
      [rewrite F0 by lia; reflexivity|].
    destruct (S0 ltac:(lia) ltac:(lia)) as (y0 & -> & Hy0).
    cbn [bind stage_forward].
    destruct (Downsample_forward_cases d0 d1 c1 n0 y0 n h1 w1 En0 Ec1 Hy0)
      as [S1 F1].
    destruct (Z_lt_le_dec (Z.min h1 w1) 2) as [L1|L1];
      [rewrite F1 by lia; reflexivity|].
    destruct (S1 ltac:(lia) ltac:(lia)) as (y1 & -> & Hy1).
    cbn [bind stage_forward].
    destruct (Downsample_forward_cases d1 d2 c2 n1 y1 n h2 w2 En1 Ec2 Hy1)
      as [S2 F2].
    destruct (Z_lt_le_dec (Z.min h2 w2) 2) as [L2|L2];
      [rewrite F2 by lia; reflexivity|].
    destruct (S2 ltac:(lia) ltac:(lia)) as (y2 & -> & Hy2).
    cbn [bind stage_forward].
    destruct (Downsample_forward_cases d2 d3 c3 n2 y2 n h3 w3 En2 Ec3 Hy2)
      as [S3 F3].
    destruct (Z_lt_le_dec (Z.min h3 w3) 2) as [L3|L3];
      [rewrite F3 by lia; reflexivity|].
    exfalso. destruct Hsmall as [Hs'|Hs'].
    + specialize (Hh_sm Hs'). lia.
    + specialize (Hw_sm Hs'). lia.
Qed.

Lemma nnLayerNorm_init_fields (s : list Z) (eps : Q) (fn : nnLayerNorm) :
  nnLayerNorm_init s eps = Ok fn -> nln_shape fn = s.
Proof.
  unfold nnLayerNorm_init. intros H.
  apply bind_Ok_inv in H. destruct H as (w & _ & H). cbv beta in H.
  apply bind_Ok_inv in H. destruct H as (b & _ & H). cbv beta in H.
  inversion H. reflexivity.
Qed.

(** X10. A backbone the constructor returned for four depths and four widths
    holds no block, and its forward pass accepts exactly the inputs of at
    least 32 x 32 positions: on [N, in_chans, H, W] with [32 <= H] and
    [32 <= W] (multiples of 32 or not) the features have shape
    [N, dims[3]] and the output [N, num_classes]; on a smaller input a
    convolution of the stem or of a downsampling layer raises. *)
Theorem ConvNeXt_forward_shape (in_chans num_classes : Z) (depths : list Z)
    (d0 d1 d2 d3 : Z) (R lsiv his : Q)
    (ks : scalar_or_seq Z) (cfs : scalar_or_seq ConvFn) (m : ConvNeXt) :
  List.length depths = 4%nat ->
  ConvNeXt_init in_chans num_classes depths [d0; d1; d2; d3]
                R lsiv his ks cfs = Ok m ->
  1 <= in_chans -> 1 <= d0 -> 1 <= d1 -> 1 <= d2 -> 1 <= d3 ->
  stages m = [[]; []; []; []]
  /\ forall training rnd (x : @Tensor F) n h w,
       shape x = [n; in_chans; h; w] ->
       (32 <= h -> 32 <= w ->
        exists f y,
          ConvNeXt_forward_features m training rnd x = Ok f
          /\ shape f = [n; d3]
          /\ ConvNeXt_forward m training rnd x = Ok y
          /\ shape y = [n; num_classes])
       /\ (h < 32 \/ w < 32 ->
           ConvNeXt_forward m training rnd x
           = Err (RuntimeError
                    "Kernel size can't be greater than actual input size")).
Proof.
  intros Hlen Hm _ _ _ _ _.
  destruct (ConvNeXt_init_layers _ _ _ _ _ _ _ _ _ _ _ _ _ _ Hlen Hm)
    as (c0 & n0 & c1 & n1 & c2 & n2 & c3 & fn & hd
        & Ec0 & En0 & Ec1 & En1 & Ec2 & En2 & Ec3 & Efn & Ehd & ->).
  cbn [last] in Efn, Ehd.
  split; [reflexivity|].
  intros training rnd x n h w Hx.
  destruct (trunk_forward in_chans d0 d1 d2 d3 c0 c1 c2 c3 n0 n1 n2
              (mkConvNeXt 4 num_classes
                 [Stem c0 n0; Downsample n0 c1; Downsample n1 c2;
                  Downsample n2 c3] [[]; []; []; []] fn hd)
              training rnd x n h w Ec0 En0 Ec1 En1 Ec2 En2 Ec3
              eq_refl eq_refl Hx) as [Tok Tsm].
  unfold ConvNeXt_forward, ConvNeXt_forward_features.
  cbn [num_stages final_norm head]. change (range 4) with [0; 1; 2; 3].
  split.
  - intros Hh Hw. destruct (Tok Hh Hw) as (p & Hp & Hsp).
    apply bind_Ok_inv in Hp. destruct Hp as (y4 & -> & Hp). cbv beta in Hp.
    cbn [bind]. rewrite Hp. cbn [bind].
    unfold nnLayerNorm_forward.
    rewrite (nnLayerNorm_init_fields _ _ _ Efn).
    destruct (F_layer_norm_last_axis p (nln_weight fn) (nln_bias fn)
                (nln_eps fn) [n] d3 Hsp) as (f & Hf & Hsf).
    rewrite Hf. cbn [bind].
    apply Linear_init_fields in Ehd.
    destruct Ehd as (Hin & Hout).
    destruct (Linear_forward_last_axis hd f [n]) as (y & Hy & Hsy);
      [rewrite Hsf, Hsp, Hin; reflexivity|].
    exists f, y. rewrite Hy, Hsy, Hout, Hsf, Hsp.
    repeat split; reflexivity.
  - intros Hsmall. rewrite (Tsm Hsmall). reflexivity.
Qed.

(** X11. The constructor accepts more widths than depths: the extra widths
    build no layer, but the final normalisation and the head are sized by
    the last width.  On an input of at least 32 x 32 positions the forward
    pass of such a backbone raises at the final normalisation when the last
    width differs from the width of the fourth stage, and returns
    [N, num_classes] when the two agree. *)
Theorem ConvNeXt_extra_dims (in_chans num_classes : Z) (depths : list Z)
    (d0 d1 d2 d3 : Z) (extra : list Z) (R lsiv his : Q)
    (ks : scalar_or_seq Z) (cfs : scalar_or_seq ConvFn) (m : ConvNeXt)
    (training : bool) (rnd : Z -> Z -> list Z -> F) (x : @Tensor F)
    (n h w : Z) :
  List.length depths = 4%nat -> extra <> [] ->
  ConvNeXt_init in_chans num_classes depths (d0 :: d1 :: d2 :: d3 :: extra)
                R lsiv his ks cfs = Ok m ->
  1 <= in_chans -> 1 <= d0 -> 1 <= d1 -> 1 <= d2 -> 1 <= d3 ->
  shape x = [n; in_chans; h; w] -> 32 <= h -> 32 <= w ->
  (last extra 0 <> d3 ->
   ConvNeXt_forward m training rnd x
   = Err (RuntimeError "layer_norm: input does not end with normalized_shape"))
  /\ (last extra 0 = d3 ->
      exists y, ConvNeXt_forward m training rnd x = Ok y
                /\ shape y = [n; num_classes]).
Proof.
  intros Hlen Hex Hm _ _ _ _ _ Hx Hh Hw.
  destruct (ConvNeXt_init_layers _ _ _ _ _ _ _ _ _ _ _ _ _ _ Hlen Hm)
    as (c0 & n0 & c1 & n1 & c2 & n2 & c3 & fn & hd
        & Ec0 & En0 & Ec1 & En1 & Ec2 & En2 & Ec3 & Efn & Ehd & ->).
  assert (Hl : last (d3 :: extra) 0 = last extra 0)
    by (destruct extra; [congruence | reflexivity]).
  rewrite Hl in Efn, Ehd.
  destruct (trunk_forward in_chans d0 d1 d2 d3 c0 c1 c2 c3 n0 n1 n2
              (mkConvNeXt 4 num_classes
                 [Stem c0 n0; Downsample n0 c1; Downsample n1 c2;
                  Downsample n2 c3] [[]; []; []; []] fn hd)
              training rnd x n h w Ec0 En0 Ec1 En1 Ec2 En2 Ec3
              eq_refl eq_refl Hx) as [Tok _].
  destruct (Tok Hh Hw) as (p & Hp & Hsp).
  apply bind_Ok_inv in Hp. destruct Hp as (y4 & Hy4 & Hp). cbv beta in Hp.
  unfold ConvNeXt_forward, ConvNeXt_forward_features.
  cbn [num_stages final_norm head]. change (range 4) with [0; 1; 2; 3].
  rewrite Hy4. cbn [bind]. rewrite Hp. cbn [bind].
  unfold nnLayerNorm_forward.
  rewrite (nnLayerNorm_init_fields _ _ _ Efn).
  split.
  - intros Hne. unfold F_layer_norm, rank. rewrite Hsp.
    cbn [List.length Nat.ltb Nat.leb Nat.sub skipn shape_eqb].
    destruct (Z.eqb_spec d3 (last extra 0)) as [E|E]; [congruence|].
    reflexivity.
  - intros He. rewrite He.
    destruct (F_layer_norm_last_axis p (nln_weight fn) (nln_bias fn)
                (nln_eps fn) [n] d3 Hsp) as (f & Hf & Hsf).
    rewrite Hf. cbn [bind].
    apply Linear_init_fields in Ehd.
    destruct Ehd as (Hin & Hout).
    destruct (Linear_forward_last_axis hd f [n]) as (y & Hy & Hsy);
      [rewrite Hsf, Hsp, Hin, He; reflexivity|].
    exists y. rewrite Hy, Hsy, Hout. split; reflexivity.
Qed.

(** ** Which configurations the constructor accepts *)







End Properties.

(** * The properties on concrete inputs *)

#[local] Existing Instance ZFloatOps.

(** C1 at the smallest named configuration. *)
Lemma ConvNeXt_init_raises_witness :
  Exists (fun d => 0 < d) [3; 3; 9; 3]
  /\ valid_config 3 [3; 3; 9; 3] [96; 192; 384; 768] (Scalar nn_Conv2d)
  /\ (exists e,
        ConvNeXt_init (ops := ZFloatOps) 3 1000 [3; 3; 9; 3] [96; 192; 384; 768]
                      0 (1 # 1000000) 1 (Scalar 7) (Scalar nn_Conv2d)
        = Err e)
  /\ ConvNeXt_init (ops := ZFloatOps) 3 1000 [3; 3; 9; 3] [96; 192; 384; 768]
                   0 (1 # 1000000) 1 (Scalar 7) (Scalar nn_Conv2d)
     = Err (AssertionError kernel_sizes_msg).
Proof.
  assert (H : Exists (fun d => 0 < d) [3; 3; 9; 3])
    by (apply Exists_cons_hd; lia).
  assert (Hv : valid_config 3 [3; 3; 9; 3] [96; 192; 384; 768]
                            (Scalar nn_Conv2d)).
  { split; [lia|]. split; [reflexivity|]. split.
    - repeat constructor; reflexivity.
    - split; [repeat constructor; lia | exact I]. }
  destruct (ConvNeXt_init_raises (ops := ZFloatOps) 3 1000 [3; 3; 9; 3]
              [96; 192; 384; 768] 0 (1 # 1000000) 1 (Scalar 7)
              (Scalar nn_Conv2d) H) as [H1 H2].
  exact (conj H (conj Hv (conj H1 (H2 Hv)))).
Defined.

(** The same construction, evaluated. *)
Lemma ConvNeXt_init_tiny_example :
  ConvNeXt_init (ops := ZFloatOps) 3 1000 [3; 3; 9; 3] [96; 192; 384; 768]
                0 (1 # 1000000) 1 (Scalar 7) (Scalar nn_Conv2d)
  = Err (AssertionError kernel_sizes_msg).
Proof. vm_compute. reflexivity. Qed.

(** Without any block the same constructor returns a model. *)
Lemma ConvNeXt_init_no_block_example :
  is_ok (ConvNeXt_init (ops := ZFloatOps) 3 1000 [0; 0; 0; 0]
                       [96; 192; 384; 768] 0 (1 # 1000000) 1 (Scalar 7)
                       (Scalar nn_Conv2d)) = true.
Proof. vm_compute. reflexivity. Qed.

(** C2 at width 8 on a 4x4 input. *)
Lemma MSCABlock_forward_raises_witness :
  valid_dim 8
  /\ shape ex_input_8 = [1; 8; 4; 4]
  /\ exists blk,
       MSCABlock_init (ops := ZFloatOps) 8 [3; 11; 11] 0 (1 # 1000000) nn_Conv2d
       = Ok blk
       /\ exists e, MSCABlock_forward blk false (fun _ => 1) ex_input_8 = Err e.
Proof.
  assert (Hd : valid_dim 8) by (split; [lia | reflexivity]).
  split; [exact Hd|]. split; [reflexivity|].
  eexists; split; [reflexivity|].
  apply (MSCABlock_forward_raises (ops := ZFloatOps) 8 0 (1 # 1000000)
           nn_Conv2d _ false (fun _ => 1) ex_input_8 1 4 4 Hd);
    reflexivity.
Defined.

(** On that input the four branches and the first residual sum are computed,
    the mean over the channels has one channel, and the gate, whose first
    convolution expects eight, raises. *)
Lemma MSCABlock_forward_raises_example :
  exists blk fused fmean1,
    MSCABlock_init (ops := ZFloatOps) 8 [3; 11; 11] 0 (1 # 1000000) nn_Conv2d
    = Ok blk
    /\ MSCABlock_first_residual blk ex_input_8 = Ok fused
    /\ shape fused = [1; 8; 4; 4]
    /\ mean_keepdim fused 1 = Ok fmean1
    /\ shape fmean1 = [1; 1; 4; 4]
    /\ in_channels (attn_conv1 (attn blk)) = 8
    /\ MSCABlock_forward blk false (fun _ => 1) ex_input_8
       = Err (RuntimeError "expected input to have in_channels channels").
Proof.
  eexists; eexists; eexists. split; [reflexivity|].
  split; [reflexivity|]. split; [reflexivity|].
  split; [reflexivity|]. split; [reflexivity|]. split; [reflexivity|].
  vm_compute. reflexivity.
Qed.

(** The same with a partial convolution in the branches, at width 16. *)
Lemma MSCABlock_forward_partial_example :
  exists blk fused fmean1,
    MSCABlock_init (ops := ZFloatOps) 16 [3; 11; 11] 0 (1 # 1000000)
                   (partial_PartialConv2d (1 # 2)) = Ok blk
    /\ MSCABlock_first_residual blk (ramp [2; 16; 3; 3]) = Ok fused
    /\ shape fused = [2; 16; 3; 3]
    /\ mean_keepdim fused 1 = Ok fmean1
    /\ shape fmean1 = [2; 1; 3; 3]
    /\ in_channels (attn_conv1 (attn blk)) = 16
    /\ MSCABlock_forward blk false (fun _ => 1) (ramp [2; 16; 3; 3])
       = Err (RuntimeError "expected input to have in_channels channels").
Proof.
  eexists; eexists; eexists. split; [reflexivity|].
  split; [reflexivity|]. split; [reflexivity|].
  split; [reflexivity|]. split; [reflexivity|]. split; [reflexivity|].
  vm_compute. reflexivity.
Qed.

(** The plain block, by contrast, returns a tensor of the input's shape. *)
Lemma Block_forward_example :
  exists blk y,
    Block_init (ops := ZFloatOps) 8 7 0 (1 # 1000000) nn_Conv2d = Ok blk
    /\ Block_forward blk false (fun _ => 1) ex_input_8 = Ok y
    /\ shape y = shape ex_input_8.
Proof.
  eexists; eexists. split; [reflexivity|]. split; reflexivity.
Qed.

(** C3 at width 8 with the kernel sizes [3, 7, 11]. *)
Lemma MSCABlock_kernel_triplet_witness :
  valid_dim 8 /\ valid_conv_fn nn_Conv2d
  /\ (is_ok (MSCABlock_init (ops := ZFloatOps) 8 [3; 7; 11] 0 (1 # 1000000)
                            nn_Conv2d) = true
      <-> [3; 7; 11] = [3; 11; 11])
  /\ ([3; 7; 11] <> [3; 11; 11] ->
      exists msg,
        MSCABlock_init (ops := ZFloatOps) 8 [3; 7; 11] 0 (1 # 1000000) nn_Conv2d
        = Err (AssertionError msg))
  /\ MSCABlock_init (ops := ZFloatOps) 8 [3; 7; 11] 0 (1 # 1000000) nn_Conv2d
     = Err (AssertionError kernel_sizes_msg).
Proof.
  assert (Hd : valid_dim 8) by (split; [lia | reflexivity]).
  split; [exact Hd|]. split; [exact I|].
  apply (MSCABlock_kernel_triplet (ops := ZFloatOps)); [exact Hd | exact I].
Defined.


(** On that input the partial convolution does return. *)
Lemma PartialConv2d_frame_example :
  exists p,
    PartialConv2d_init (ops := ZFloatOps) 4 4 (3, 3) (1 # 2) (1, 1) (1, 1)
                       (1, 1) 4 true = Ok p
    /\ is_ok (PartialConv2d_forward p ex_input_4) = true.
Proof.
  eexists; split; [reflexivity|]. vm_compute. reflexivity.
Qed.

(** C5 does not extend to every kernel geometry: with ratio 1.0, a 3x3 kernel
    and no padding, on a 5x5 input the standard convolution returns a 3x3
    output while the partial convolution raises. *)
Lemma PartialConv2d_ratio_one_counterexample :
  exists pc c,
    PartialConv2d_init (ops := ZFloatOps) 4 4 (3, 3) 1 (1, 1) (0, 0) (1, 1) 1
                       true = Ok pc
    /\ Conv2d_init (ops := ZFloatOps) 4 4 (3, 3) (1, 1) (0, 0) (1, 1) 1 true
       = Ok c
    /\ is_ok (Conv2d_forward c ex_input_4) = true
    /\ PartialConv2d_forward pc ex_input_4
       = Err (RuntimeError "Sizes of tensors must match except in the cat dimension")
    /\ ~ same_outcome (PartialConv2d_forward pc ex_input_4)
                      (Conv2d_forward c ex_input_4).
Proof.
  eexists; eexists. split; [reflexivity|]. split; [reflexivity|].
  split; [vm_compute; reflexivity|]. split; [vm_compute; reflexivity|].
  intros H. vm_compute in H. exact H.
Qed.

(** C5 with same-padding. *)
Lemma PartialConv2d_ratio_one_witness :
  exists pc c,
    (PartialConv2d_init (ops := ZFloatOps) 4 4 (3, 3) 1 (1, 1) (1, 1) (1, 1) 1
                        true = Ok pc
     /\ Conv2d_init (ops := ZFloatOps) 4 4 (3, 3) (1, 1) (1, 1) (1, 1) 1 true
        = Ok c
     /\ 0 <= 4
     /\ shape ex_input_4 = [1; 4; 5; 5])
    /\ (conv pc = c
        /\ split_indices pc = (0, 4)
        /\ (forall y, Conv2d_forward c ex_input_4 = Ok y ->
                      shape y = [1; 4; 5; 5] ->
                      same_outcome (PartialConv2d_forward pc ex_input_4) (Ok y))
        /\ (forall e, Conv2d_forward c ex_input_4 = Err e ->
                      PartialConv2d_forward pc ex_input_4 = Err e)
        /\ (forall y, Conv2d_forward c ex_input_4 = Ok y ->
                      shape y <> [1; 4; 5; 5] ->
                      exists e, PartialConv2d_forward pc ex_input_4 = Err e)).
Proof.
  assert (H4 : 0 <= 4) by lia.
  eexists; eexists. split.
  - split; [reflexivity|]. split; [reflexivity|]. split; [exact H4 | reflexivity].
  - apply (PartialConv2d_ratio_one (ops := ZFloatOps) 4 4 (3, 3) (1, 1) (1, 1)
             (1, 1) 1 true _ _ ex_input_4 1 5 5); try reflexivity.
    exact H4.
Defined.

(** C6 on a 5x5 input with four channels. *)
Lemma LayerNorm_channels_first_witness :
  exists m,
    (LayerNorm_init (ops := ZFloatOps) 4 (1 # 1000000) "channels_first" = Ok m
     /\ data_format m = "channels_first"%string
     /\ shape (ln_weight m) = [4] /\ shape (ln_bias m) = [4]
     /\ shape ex_input_4 = [1; 4; 5; 5])
    /\ exists y,
         LayerNorm_forward m ex_input_4 = Ok y
         /\ shape y = shape ex_input_4
         /\ forall i k j l,
              0 <= i < 1 -> 0 <= k < 4 -> 0 <= j < 5 -> 0 <= l < 5 ->
              let chans := map (fun k' => val ex_input_4 [i; k'; j; l]) (range 4) in
              let mean := fmean chans in
              let var :=
                fmean (map (fun v => fmul (fsub v mean) (fsub v mean)) chans) in
              val y [i; k; j; l]
              = fadd (fmul (val (ln_weight m) [k])
                           (fdiv (fsub (val ex_input_4 [i; k; j; l]) mean)
                                 (fsqrt (fadd var (of_float (ln_eps m))))))
                     (val (ln_bias m) [k]).
Proof.
  eexists. split.
  - split; [reflexivity|]. repeat split; reflexivity.
  - apply (LayerNorm_channels_first (ops := ZFloatOps) _ ex_input_4 1 4 5 5);
      reflexivity.
Defined.


(** The rate of the tenth of the eighteen blocks, the first of the third
    stage's later half: 9/170 of a maximum of 1/10. *)
Lemma drop_rates_linear_example :
  exists rates,
    block_drop_rates [3; 3; 9; 3] [96; 192; 384; 768] (1 # 10)
                     (repeat nn_Conv2d 4) = Ok rates
    /\ exists r, nth_error (List.concat rates) 9 = Some r
                 /\ (r == 9 # 170)%Q.
Proof.
  eexists; split; [vm_compute; reflexivity|].
  eexists; split; [vm_compute; reflexivity|]. reflexivity.
Qed.


(** The same call without [in_22k] raises too, and the exception of both
    calls is the one of the block constructor. *)
Lemma convnext_tiny_k5_example :
  convnext_tiny_k5 no_load false false default_kwargs
  = Err (AssertionError kernel_sizes_msg)
  /\ convnext_tiny_k5 no_load false true default_kwargs
     = Err (AssertionError kernel_sizes_msg).
Proof.
  split; vm_compute; reflexivity.
Qed.

(** C8 on a plain block of width 8 with a positive drop rate. *)
Lemma inference_deterministic_witness :
  exists blk,
    Block_init (ops := ZFloatOps) 8 7 (1 # 2) (1 # 1000000) nn_Conv2d = Ok blk
    /\ blk_drop_path blk = DropPath (1 # 2)
    /\ Block_forward blk false (fun _ => 0) ex_input_8
       = Block_forward blk false (fun _ => 1) ex_input_8.
Proof.
  eexists; split; [reflexivity|]. split; [reflexivity|].
  apply (proj1 (proj2 (inference_deterministic (ops := ZFloatOps)))).
Defined.

(** C9 on plain blocks of width 8 built with a positive and with a zero
    [layer_scale_init_value]. *)
Lemma layer_scale_gamma_witness :
  (exists blk,
      Block_init (ops := ZFloatOps) 8 7 0 (1 # 1000000) nn_Conv2d = Ok blk
      /\ (0 < 1 # 1000000)%Q
      /\ blk_gamma blk
         = Some (mkTensor [8] (fun _ => fmul (of_float (1 # 1000000)) fone)))
  /\ (exists blk,
        Block_init (ops := ZFloatOps) 8 7 0 0 nn_Conv2d = Ok blk
        /\ (0 <= 0)%Q
        /\ blk_gamma blk = None).
Proof.
  split.
  - eexists; split; [reflexivity|].
    assert (H : (0 < 1 # 1000000)%Q) by reflexivity.
    split; [exact H|].
    refine (proj1 (proj1 (layer_scale_gamma (ops := ZFloatOps))
                     8 7 0%Q (1 # 1000000) nn_Conv2d _ _) H).
    reflexivity.
  - eexists; split; [reflexivity|].
    assert (H : (0 <= 0)%Q) by (unfold Qle; simpl; lia).
    split; [exact H|].
    refine (proj2 (proj1 (layer_scale_gamma (ops := ZFloatOps))
                     8 7 0%Q 0%Q nn_Conv2d _ _) H).
    reflexivity.
Defined.

(** * The further properties on concrete inputs *)



(** X3 at size 8 with the channel-first format. *)
Lemma LayerNorm_formats_witness :
  0 <= 8
  /\ LayerNorm_init (ops := ZFloatOps) 8 (1 # 1000000) "channels_first"
     = Ok (mkLayerNorm (mkTensor [8] (fun _ => fone))
                       (mkTensor [8] (fun _ => fzero))
                       (1 # 1000000) "channels_first" [8])
  /\ (forall m (x : ZTensor) n h w,
        LayerNorm_init 8 (1 # 1000000) "channels_first" = Ok m ->
        shape x = [n; 8; h; w] ->
        exists y, LayerNorm_forward m x = Ok y /\ shape y = shape x).
Proof.
  assert (H : 0 <= 8) by lia.
  split; [exact H|].
  destruct (LayerNorm_formats (ops := ZFloatOps) 8 (1 # 1000000)
              "channels_first" H) as (_ & H2 & _ & H4).
  split; [apply H2; right; reflexivity | exact H4].
Defined.

(** X4 on a layer over 8 channels and an input with 4 channels. *)
Lemma LayerNorm_channels_first_mismatch_witness :
  exists m,
    LayerNorm_init (ops := ZFloatOps) 8 (1 # 1000000) "channels_first" = Ok m
    /\ (data_format m = "channels_first"%string
        /\ shape (ln_weight m) = [8] /\ shape (ln_bias m) = [8]
        /\ shape ex_input_4 = [1; 4; 5; 5])
    /\ (4 <> 8 -> 8 <> 1 -> 4 <> 1 ->
        LayerNorm_forward m ex_input_4
        = Err (RuntimeError "The size of tensor a must match the size of tensor b")).
Proof.
  pose (m := mkLayerNorm (mkTensor [8] (fun _ => 1%Z))
                         (mkTensor [8] (fun _ => 0%Z))
                         (1 # 1000000) "channels_first" [8]).
  exists m. split; [reflexivity|].
  assert (H4 : shape ex_input_4 = [1; 4; 5; 5]) by reflexivity.
  split; [exact (conj eq_refl (conj eq_refl (conj eq_refl H4)))|].
  exact (proj2 (proj2 (LayerNorm_channels_first_mismatch (ops := ZFloatOps)
                         m ex_input_4 1 8 4 5 5 eq_refl eq_refl eq_refl H4))).
Defined.



(** X7 with the depths of the tiny configuration and three widths. *)
Lemma ConvNeXt_init_short_dims_witness :
  (0 <= 3 /\ Forall (fun d => 0 <= d) [96; 192; 384]
   /\ (List.length [96; 192; 384] < List.length [3; 3; 9; 3])%nat)
  /\ ConvNeXt_init (ops := ZFloatOps) 3 1000 [3; 3; 9; 3] [96; 192; 384]
                   0 (1 # 1000000) 1 (Scalar 7) (Scalar nn_Conv2d)
     = Err (IndexError "list index out of range").
Proof.
  assert (H1 : 0 <= 3) by lia.
  assert (H2 : Forall (fun d => 0 <= d) [96; 192; 384])
    by (repeat (apply Forall_cons; [lia|]); apply Forall_nil).
  assert (H3 : (List.length [96; 192; 384] < List.length [3; 3; 9; 3])%nat)
    by (simpl; lia).
  split; [exact (conj H1 (conj H2 H3))|].
  exact (ConvNeXt_init_short_dims (ops := ZFloatOps) 3 1000 [3; 3; 9; 3]
           [96; 192; 384] 0 (1 # 1000000) 1 (Scalar 7) (Scalar nn_Conv2d)
           H1 H2 H3).
Defined.



(** X10 on a backbone of widths 8, 16, 24 and 32 for images with 3
    channels. *)
Lemma ConvNeXt_forward_shape_witness :
  exists m,
    (List.length [0; 0; 0; 0] = 4%nat
     /\ ConvNeXt_init (ops := ZFloatOps) 3 10 [0; 0; 0; 0] [8; 16; 24; 32]
                      0 (1 # 1000000) 1 (Scalar 7) (Scalar nn_Conv2d) = Ok m
     /\ 1 <= 3 /\ 1 <= 8 /\ 1 <= 16 /\ 1 <= 24 /\ 1 <= 32)
    /\ stages m = [[]; []; []; []]
    /\ forall training rnd (x : ZTensor) n h w,
         shape x = [n; 3; h; w] ->
         (32 <= h -> 32 <= w ->
          exists f y,
            ConvNeXt_forward_features m training rnd x = Ok f
            /\ shape f = [n; 32]
            /\ ConvNeXt_forward m training rnd x = Ok y
            /\ shape y = [n; 10])
         /\ (h < 32 \/ w < 32 ->
             ConvNeXt_forward m training rnd x
             = Err (RuntimeError
                      "Kernel size can't be greater than actual input size")).
Proof.
  destruct (ConvNeXt_init (ops := ZFloatOps) 3 10 [0; 0; 0; 0] [8; 16; 24; 32]
              0 (1 # 1000000) 1 (Scalar 7) (Scalar nn_Conv2d))
    as [m|e] eqn:E; [|vm_compute in E; discriminate].
  exists m.
  assert (H1 : 1 <= 3) by lia. assert (H2 : 1 <= 8) by lia.
  assert (H3 : 1 <= 16) by lia. assert (H4 : 1 <= 24) by lia.
  assert (H5 : 1 <= 32) by lia.
  split; [exact (conj eq_refl (conj eq_refl (conj H1 (conj H2 (conj H3
                   (conj H4 H5))))))|].
  exact (ConvNeXt_forward_shape (ops := ZFloatOps) 3 10 [0; 0; 0; 0]
           8 16 24 32 0 (1 # 1000000) 1 (Scalar 7) (Scalar nn_Conv2d) m
           eq_refl E H1 H2 H3 H4 H5).
Defined.

(** X11 with a fifth width, 64, on a 32x32 image. *)
Lemma ConvNeXt_extra_dims_witness :
  exists m,
    (List.length [0; 0; 0; 0] = 4%nat /\ [64] <> []
     /\ ConvNeXt_init (ops := ZFloatOps) 3 10 [0; 0; 0; 0] [8; 16; 24; 32; 64]
                      0 (1 # 1000000) 1 (Scalar 7) (Scalar nn_Conv2d) = Ok m
     /\ 1 <= 3 /\ 1 <= 8 /\ 1 <= 16 /\ 1 <= 24 /\ 1 <= 32
     /\ shape (ramp [1; 3; 32; 32]) = [1; 3; 32; 32] /\ 32 <= 32)
    /\ (last [64] 0 <> 32 ->
        ConvNeXt_forward m false (fun _ _ _ => 1) (ramp [1; 3; 32; 32])
        = Err (RuntimeError
                 "layer_norm: input does not end with normalized_shape"))
    /\ (last [64] 0 = 32 ->
        exists y,
          ConvNeXt_forward m false (fun _ _ _ => 1) (ramp [1; 3; 32; 32]) = Ok y
          /\ shape y = [1; 10]).
Proof.
  destruct (ConvNeXt_init (ops := ZFloatOps) 3 10 [0; 0; 0; 0]
              [8; 16; 24; 32; 64] 0 (1 # 1000000) 1 (Scalar 7)
              (Scalar nn_Conv2d))
    as [m|e] eqn:E; [|vm_compute in E; discriminate].
  exists m.
  assert (H0 : [64] <> []) by discriminate.
  assert (H1 : 1 <= 3) by lia. assert (H2 : 1 <= 8) by lia.
  assert (H3 : 1 <= 16) by lia. assert (H4 : 1 <= 24) by lia.
  assert (H5 : 1 <= 32) by lia.
  assert (H6 : shape (ramp [1; 3; 32; 32]) = [1; 3; 32; 32]) by reflexivity.
  assert (H7 : 32 <= 32) by lia.
  split; [exact (conj eq_refl (conj H0 (conj eq_refl (conj H1 (conj H2
                   (conj H3 (conj H4 (conj H5 (conj H6 H7)))))))))|].
  exact (ConvNeXt_extra_dims (ops := ZFloatOps) 3 10 [0; 0; 0; 0]
           8 16 24 32 [64] 0 (1 # 1000000) 1 (Scalar 7) (Scalar nn_Conv2d) m
           false (fun _ _ _ => 1) (ramp [1; 3; 32; 32]) 1 32 32
           eq_refl H0 E H1 H2 H3 H4 H5 H6 H7 H7).
Defined.

